(** * SignBridge translator: the frame / session / feedback views

    Shallow embedding of [translator/views.py] and [translator/models.py].
    Database tables are stdpp finite maps keyed by primary key; request
    bodies are JSON values; Python exceptions are an error monad.
    A JSON number is a Python [int] or a Python [float]; floats are IEEE
    754 binary64 values, with the Standard Library's [SpecFloat]
    arithmetic. *)

From Stdlib Require Import QArith Qround Ascii String SpecFloat.
From stdpp Require Import base gmap strings list sorting.

#[local] Set Warnings "-register-all".
Local Open Scope string_scope.

(* ------------------------------------------------------------------ *)
(** ** JSON values and the Python operations the views apply to them *)

(** [json.loads] gives an [int] for a number written without fraction or
    exponent and a [float] (the nearest binary64 value, or the NaN and
    infinities it also accepts) for any other. *)
Inductive jval : Type :=
| JNull
| JBool (b : bool)
| JInt (z : Z)
| JFloat (f : spec_float)
| JStr (s : string)
| JArr (l : list jval)
| JObj (kvs : list (string * jval)).

(** Python exceptions raised along the modelled paths. *)
Inductive exn : Type :=
| Http404            (* get_object_or_404: no row matches *)
| ValueError         (* int() of a bad string, non-ASCII base64 text *)
| TypeError          (* unsupported operand / argument types *)
| AttributeError     (* .get / .split on a value without it *)
| Base64Error        (* binascii.Error from b64decode *)
| IntegrityError     (* NOT NULL column given None *)
| ImportError        (* google.generativeai / PIL not installed *)
| UpstreamError      (* anything the remote Gemini call raises *)
| ImageError         (* PIL.Image.open cannot identify the image *)
| JSONDecodeError    (* json.loads on text that is not JSON *)
| MultipleObjectsReturned
| OverflowError      (* float() of a huge int, int() of an infinity *)
| NoReverseMatch     (* resolve_url: neither a route name nor a URL *)
| DisallowedRedirect.

Inductive result (A : Type) : Type :=
| Ok (a : A)
| Err (e : exn).
Arguments Ok {A} a.
Arguments Err {A} e.

Definition bind {A B} (m : result A) (k : A -> result B) : result B :=
  match m with Ok a => k a | Err e => Err e end.

Notation "'let?' x ':=' m 'in' k" := (bind m (fun x => k))
  (at level 200, x name, m at level 100, k at level 200).

(* ------------------------------------------------------------------ *)
(** ** Python floats: binary64 *)

(** The double nearest to [n / d], ties to even: the value of a decimal
    literal such as [0.3] in the source, or of a number [json.loads]
    reads. [SFdiv] rounds the exact quotient of the two integers. *)
Definition f64_of_ratio (n : Z) (d : positive) : spec_float :=
  match n with
  | Z0 => S754_zero false
  | Zpos p => SFdiv 53 1024 (S754_finite false p 0) (S754_finite false d 0)
  | Zneg p => SFdiv 53 1024 (S754_finite true p 0) (S754_finite false d 0)
  end.

(** An [int] rounded to the nearest double, ties to even (an infinity
    when it is too large). *)
Definition f64_of_Z (z : Z) : spec_float := binary_normalize 53 1024 z 0 false.

(** The exact value of a finite double (0 for the others, which the
    callers treat apart). *)
Definition f64_to_Q (f : spec_float) : Q :=
  match f with
  | S754_finite s m e => ((if s then -1 else 1) * inject_Z (Zpos m) * Qpower 2 e)%Q
  | _ => 0%Q
  end.

(** [x * y] on two floats. *)
Definition f64_mul (x y : spec_float) : spec_float := SFmul 53 1024 x y.

(** The literal [0.3] of the confidence gate. *)
Definition point_three : spec_float := f64_of_ratio 3 10.

(** Python truthiness ([if not x]). *)
Definition truthy (v : jval) : bool :=
  match v with
  | JNull => false
  | JBool b => b
  | JInt z => negb (Z.eqb z 0)
  | JFloat f => match f with S754_zero _ => false | _ => true end
  | JStr s => negb (String.eqb s "")
  | JArr l => negb (length l =? 0)%nat
  | JObj kvs => negb (length kvs =? 0)%nat
  end.

(** [dict.get(key, default)] on the parsed JSON: the last occurrence of
    a duplicated key wins, as in [json.loads]; a non-object raises. *)
Fixpoint assoc_last (k : string) (kvs : list (string * jval)) : option jval :=
  match kvs with
  | [] => None
  | (k', v) :: rest =>
      match assoc_last k rest with
      | Some w => Some w
      | None => if String.eqb k k' then Some v else None
      end
  end.

Definition dict_get (d : jval) (k : string) (dflt : jval) : result jval :=
  match d with
  | JObj kvs => Ok (default dflt (assoc_last k kvs))
  | _ => Err AttributeError
  end.

Definition Qlt_bool (x y : Q) : bool := negb (Qle_bool y x).

(** [z < t] for an [int] [z] and a float [t]: Python compares the exact
    values; NaN compares false. *)
Definition int_lt_float (z : Z) (t : spec_float) : bool :=
  match t with
  | S754_nan => false
  | S754_infinity s => negb s
  | S754_zero _ => Z.ltb z 0
  | S754_finite _ _ _ => Qlt_bool (inject_Z z) (f64_to_Q t)
  end.

(** [x < t] for a float literal [t]; [bool] is an [int]; [None], strings,
    lists and dicts raise [TypeError]. *)
Definition py_lt (v : jval) (t : spec_float) : result bool :=
  match v with
  | JBool b => Ok (int_lt_float (if b then 1 else 0) t)
  | JInt z => Ok (int_lt_float z t)
  | JFloat f => Ok (SFltb f t)
  | _ => Err TypeError
  end.

(** [FloatField.get_prep_value]: [float(x)]. A too large [int] raises
    [OverflowError]. Strings and [None] never reach it in the views
    (the comparison with 0.3 has raised on them first). *)
Definition py_float (v : jval) : result spec_float :=
  match v with
  | JBool b => Ok (f64_of_Z (if b then 1 else 0))
  | JInt z => match f64_of_Z z with
              | S754_infinity _ => Err OverflowError
              | f => Ok f
              end
  | JFloat f => Ok f
  | _ => Err TypeError
  end.

(** Nearest integer, ties to even. *)
Definition round_half_even (y : Q) : Z :=
  let f := Qfloor y in
  let r := (y - inject_Z f)%Q in
  if Qlt_bool r (1 # 2) then f
  else if Qlt_bool (1 # 2) r then (f + 1)%Z
  else if Z.even f then f else (f + 1)%Z.

(** [round(x, 1)] on a float, as CPython's [double_round] does it: the
    exact value is rounded to a multiple of 1/10 (ties to even), and that
    decimal is read back as the nearest double, keeping the sign of a
    zero result; zeros, infinities and NaN are returned as they are. *)
Definition py_round1_float (x : spec_float) : result spec_float :=
  match x with
  | S754_finite s _ _ =>
      let n := round_half_even (f64_to_Q x * 10) in
      if Z.eqb n 0 then Ok (S754_zero s)
      else match f64_of_ratio n 10 with
           | S754_infinity _ => Err OverflowError
           | r => Ok r
           end
  | _ => Ok x
  end.

(** [round(v * 100, 1)]: an [int] (or [bool]) times 100 is an [int],
    which [round] returns as it is; a float is multiplied in binary64
    first. *)
Definition scale_confidence (v : jval) : result jval :=
  match v with
  | JBool b => Ok (JInt (if b then 100 else 0))
  | JInt z => Ok (JInt (z * 100))
  | JFloat f => let? r := py_round1_float (f64_mul f (f64_of_Z 100)) in Ok (JFloat r)
  | _ => Err TypeError
  end.

(* ------------------------------------------------------------------ *)
(** ** Python string methods *)

Fixpoint str_contains (sub s : string) : bool :=
  if String.prefix sub s then true
  else match s with
       | EmptyString => false
       | String _ rest => str_contains sub rest
       end.

(** [s.split(sep)] for a non-empty [sep] (the views only split on
    "," and on the code fence). *)
Fixpoint split_aux (fuel : nat) (sep s acc : string) : list string :=
  match fuel with
  | O => [acc ++ s]
  | S f =>
      match s with
      | EmptyString => [acc]
      | String c rest =>
          if String.prefix sep s
          then acc :: split_aux f sep
                 (String.substring (String.length sep)
                    (String.length s - String.length sep) s) ""
          else split_aux f sep rest (acc ++ String c EmptyString)
      end
  end.

Definition py_split (s sep : string) : list string :=
  split_aux (S (String.length s)) sep s "".

(** [lst[1]]: [IndexError] is never reached by the views (they index
    only after checking the separator occurs); it is reported as a
    [ValueError] here. *)
Definition index1 (l : list string) : result string :=
  match l with
  | _ :: x :: _ => Ok x
  | _ => Err ValueError
  end.

(** Characters [str.strip()] removes (the whitespace code points
    below 256). *)
Definition is_py_space (c : ascii) : bool :=
  let n := nat_of_ascii c in
  ((9 <=? n) && (n <=? 13))%nat || ((28 <=? n) && (n <=? 32))%nat
  || (n =? 133)%nat || (n =? 160)%nat.

Fixpoint lstrip (s : string) : string :=
  match s with
  | String c rest => if is_py_space c then lstrip rest else s
  | EmptyString => EmptyString
  end.

Definition rev_str (s : string) : string :=
  string_of_list_ascii (rev (list_ascii_of_string s)).

Definition py_strip (s : string) : string :=
  rev_str (lstrip (rev_str (lstrip s))).

Definition startswith (s p : string) : bool := String.prefix p s.

Definition drop_str (n : nat) (s : string) : string :=
  String.substring n (String.length s - n) s.

(* ------------------------------------------------------------------ *)
(** ** base64.b64decode (binascii.a2b_base64, non-strict mode)

    Only whether decoding succeeds matters to the views. Characters
    outside the alphabet are skipped; a run of '=' after at least two
    data characters of a quad ends the input; a partial quad at the end
    raises [binascii.Error]. A [str] argument must be ASCII. *)

Definition is_b64_char (c : ascii) : bool :=
  let n := nat_of_ascii c in
  ((65 <=? n) && (n <=? 90))%nat || ((97 <=? n) && (n <=? 122))%nat
  || ((48 <=? n) && (n <=? 57))%nat || (n =? 43)%nat || (n =? 47)%nat.

Fixpoint a2b_loop (s : list ascii) (quad_pos pads : nat) : bool :=
  match s with
  | [] => (quad_pos =? 0)%nat
  | c :: rest =>
      if (nat_of_ascii c =? 61)%nat then
        if (2 <=? quad_pos)%nat then
          if (4 <=? quad_pos + S pads)%nat then true
          else a2b_loop rest quad_pos (S pads)
        else a2b_loop rest quad_pos pads
      else if is_b64_char c then a2b_loop rest ((quad_pos + 1) mod 4) 0
      else a2b_loop rest quad_pos pads
  end.

Definition is_ascii_str (s : string) : bool :=
  forallb (fun c => (nat_of_ascii c <? 128)%nat) (list_ascii_of_string s).

Definition b64decode (s : string) : result unit :=
  if negb (is_ascii_str s) then Err ValueError
  else if a2b_loop (list_ascii_of_string s) 0 0 then Ok tt
  else Err Base64Error.

(** [int(x)] as Django's integer fields apply it to a value: floats are
    truncated toward zero (an infinity raises [OverflowError], NaN
    [ValueError]), [bool] is an [int], strings are parsed
    (surrounding whitespace, an optional sign, decimal digits with single
    underscores between them). *)
Definition digit_val (c : ascii) : option Z :=
  let n := nat_of_ascii c in
  if ((48 <=? n) && (n <=? 57))%nat then Some (Z.of_nat n - 48)%Z else None.

Fixpoint parse_digits (l : list ascii) (acc : Z) (prev_us : bool) : option Z :=
  match l with
  | [] => if prev_us then None else Some acc
  | c :: rest =>
      if (nat_of_ascii c =? 95)%nat then
        if prev_us then None else parse_digits rest acc true
      else match digit_val c with
           | Some v => parse_digits rest (acc * 10 + v)%Z false
           | None => None
           end
  end.

Definition parse_unsigned (l : list ascii) : option Z :=
  match l with
  | [] => None
  | c :: _ => if (nat_of_ascii c =? 95)%nat then None else parse_digits l 0 false
  end.

Definition py_int_of_string (s : string) : option Z :=
  match list_ascii_of_string (py_strip s) with
  | c :: rest =>
      if (nat_of_ascii c =? 45)%nat then option_map Z.opp (parse_unsigned rest)
      else if (nat_of_ascii c =? 43)%nat then parse_unsigned rest
      else parse_unsigned (c :: rest)
  | [] => None
  end.

Definition Qtrunc (q : Q) : Z := Z.quot (Qnum q) (Zpos (Qden q)).

Definition py_int (v : jval) : result Z :=
  match v with
  | JBool b => Ok (if b then 1 else 0)%Z
  | JInt z => Ok z
  | JFloat f =>
      match f with
      | S754_zero _ => Ok 0%Z
      | S754_finite _ _ _ => Ok (Qtrunc (f64_to_Q f))
      | S754_infinity _ => Err OverflowError
      | S754_nan => Err ValueError
      end
  | JStr s => match py_int_of_string s with Some z => Ok z | None => Err ValueError end
  | _ => Err TypeError
  end.

(** [AutoField.get_prep_value] for a [pk=...] lookup: [None] stays [None]
    (an [IS NULL] test no row satisfies), anything else goes through
    [int()], whose [TypeError] / [ValueError] Django re-raises. *)
Definition pk_prep (v : jval) : result (option Z) :=
  match v with
  | JNull => Ok None
  | _ => let? z := py_int v in Ok (Some z)
  end.

(** [IntegerField.get_prep_value] on insert into a NOT NULL column. *)
Definition int_field_prep (v : jval) : result Z :=
  match v with
  | JNull => Err IntegrityError
  | _ => py_int v
  end.

(* ------------------------------------------------------------------ *)
(** ** models.py *)

Inductive session_status : Type := Active | Completed | Failed.

Record SignLanguageType : Type := {
  sl_name : string;
  sl_code : string;
  sl_is_active : bool
}.

Record TranslationSession : Type := {
  ts_user : option Z;
  ts_sign_language : option Z;
  ts_started_at : Z;
  ts_ended_at : option Z;
  ts_status : session_status;
  ts_device_info : string
}.

(** [frame_image] records whether a thumbnail file was attached. *)
Record TranslationRecord : Type := {
  tr_session : Z;
  tr_frame_image : bool;
  tr_detected_sign : jval;
  tr_translated_text : jval;
  tr_confidence_score : spec_float;
  tr_created_at : Z
}.

Record UserProfile : Type := {
  up_role : string;
  up_total_translations : Z
}.

Record Feedback : Type := {
  fb_record : Z;
  fb_user : option Z;
  fb_rating : Z;
  fb_correct_translation : string;
  fb_comment : string;
  fb_submitted_at : Z
}.

(** The database: one table per model, keyed by primary key; the
    profile table is keyed by its one-to-one [user]. *)
Record db : Type := {
  sign_languages : gmap Z SignLanguageType;
  sessions : gmap Z TranslationSession;
  records : gmap Z TranslationRecord;
  profiles : gmap Z UserProfile;
  feedbacks : gmap Z Feedback
}.

Definition set_sessions (d : db) m : db :=
  {| sign_languages := sign_languages d; sessions := m; records := records d;
     profiles := profiles d; feedbacks := feedbacks d |}.
Definition set_records (d : db) m : db :=
  {| sign_languages := sign_languages d; sessions := sessions d; records := m;
     profiles := profiles d; feedbacks := feedbacks d |}.
Definition set_profiles (d : db) m : db :=
  {| sign_languages := sign_languages d; sessions := sessions d; records := records d;
     profiles := m; feedbacks := feedbacks d |}.
Definition set_feedbacks (d : db) m : db :=
  {| sign_languages := sign_languages d; sessions := sessions d; records := records d;
     profiles := profiles d; feedbacks := m |}.

(** Next automatic primary key: one more than the largest in use. *)
Definition fresh_pk {A} (m : gmap Z A) : Z :=
  (1 + map_fold (fun k _ acc => Z.max k acc) 0 m)%Z.

(* ------------------------------------------------------------------ *)
(** ** Request handling: state and exceptions

    A view runs in [M]: it reads and writes the database and may raise.
    Writes done before an exception stay (no transaction wraps a view). *)

Definition M (A : Type) : Type := db -> result A * db.

Definition ret {A} (a : A) : M A := fun d => (Ok a, d).
Definition lift {A} (r : result A) : M A := fun d => (r, d).
Definition mbind {A B} (m : M A) (k : A -> M B) : M B :=
  fun d => match m d with
           | (Ok a, d') => k a d'
           | (Err e, d') => (Err e, d')
           end.

Notation "'let!' x ':=' m 'in' k" := (mbind m (fun x => k))
  (at level 200, x name, m at level 100, k at level 200).

Inductive errmsg : Type :=
| EMissing            (* 'Missing frame or session_id' *)
| EExn (e : exn).     (* str(e) of the caught exception *)

Inductive body : Type :=
| BError (m : errmsg)
| BLowConfidence
| BSuccess (record_id : Z) (detected_sign translated_text : jval)
           (confidence_score : jval) (description : jval)
| BOk
| BThanks.

Record response : Type := Resp { status : Z; rbody : body }.

(** [try: ... except Exception as e: return JsonResponse({'error': str(e)},
    status=500)] around a view body. *)
Definition catch_500 (m : M response) (d : db) : response * db :=
  match m d with
  | (Ok r, d') => (r, d')
  | (Err e, d') => (Resp 500 (BError (EExn e)), d')
  end.

(** [get_object_or_404(Model, pk=v)] *)
Definition get_object_or_404 {A} (tbl : db -> gmap Z A) (v : jval) : M (Z * A) :=
  fun d =>
    match pk_prep v with
    | Err e => (Err e, d)
    | Ok None => (Err Http404, d)
    | Ok (Some k) =>
        match tbl d !! k with
        | Some x => (Ok (k, x), d)
        | None => (Err Http404, d)
        end
    end.

(* ------------------------------------------------------------------ *)
(** ** AI helper: [analyze_sign_with_ai] and [_demo_response]

    What lies outside the repository is a parameter of the run: whether
    [google.generativeai] and [PIL] import, whether [genai.configure] /
    [GenerativeModel] succeed, whether PIL opens the decoded frame, the
    text Gemini answers for a language code and base64 image ([None]: the
    call or [response.text] raised), [json.loads] ([None]: it raised), and
    the index [random.choice] draws. *)

Record ai_env : Type := {
  genai_importable : bool;
  configure_ok : bool;
  pil_importable : bool;
  pil_open_ok : string -> bool;
  gemini : string -> string -> option string;
  json_loads : string -> option jval;
  random_index : nat
}.

Definition demo_sign (sign text : string) (conf : spec_float) (descr : string) : jval :=
  JObj [("detected_sign", JStr sign); ("translated_text", JStr text);
        ("confidence_score", JFloat conf); ("description", JStr descr)].

Definition demo_signs : list jval :=
  [demo_sign "Hello" "Hello!" (f64_of_ratio 92 100) "Open hand wave near face";
   demo_sign "Thank You" "Thank you very much." (f64_of_ratio 88 100) "Hand moves away from chin";
   demo_sign "Help" "Please help me." (f64_of_ratio 85 100) "Thumbs up on flat palm";
   demo_sign "Yes" "Yes." (f64_of_ratio 95 100) "Fist nodding motion";
   demo_sign "Love" "I love you." (f64_of_ratio 90 100) "ILY handshape"].

(** [random.choice(demo_signs)] *)
Definition _demo_response (i : nat) : jval :=
  nth (i mod length demo_signs) demo_signs JNull.

(** [if "," in image_base64: image_base64 = image_base64.split(",")[1]] *)
Definition strip_data_uri (s : string) : result string :=
  if str_contains "," s then index1 (py_split s ",") else Ok s.

(** Strip markdown fences: [text.split("```")[1]], then a leading "json". *)
Definition fence : string := "```".

Definition strip_fences (text : string) : result string :=
  if startswith text fence then
    let? t := index1 (py_split text fence) in
    Ok (if startswith t "json" then drop_str 4 t else t)
  else Ok text.

Definition guard (b : bool) (e : exn) : result unit :=
  if b then Ok tt else Err e.

(** The body of the [try] block. *)
Definition ai_try (env : ai_env) (image_base64 sign_language_code : string) : result jval :=
  let? _ := guard (genai_importable env) ImportError in
  let? _ := guard (configure_ok env) UpstreamError in
  let? img := strip_data_uri image_base64 in
  let? _ := b64decode img in
  let? _ := guard (pil_importable env) ImportError in
  let? _ := guard (pil_open_ok env img) ImageError in
  let? raw := match gemini env sign_language_code img with
              | Some t => Ok t
              | None => Err UpstreamError
              end in
  let? text := strip_fences (py_strip raw) in
  match json_loads env text with
  | Some r => Ok r
  | None => Err JSONDecodeError
  end.

(** [except ImportError: return _demo_response()]
    [except Exception as e: print(...); return _demo_response()] *)
Definition analyze_sign_with_ai (env : ai_env) (image_base64 sign_language_code : string)
  : result jval :=
  match ai_try env image_base64 sign_language_code with
  | Ok r => Ok r
  | Err ImportError => Ok (_demo_response (random_index env))
  | Err _ => Ok (_demo_response (random_index env))
  end.

(* ------------------------------------------------------------------ *)
(** ** views.analyze_frame

    The JSON body's [frame] and [sign_language] are strings (the camera
    page sends a data-URI and a language code); [session_id] is any JSON
    value. [None] means the key is absent. [user] is [request.user.pk]
    when the request is authenticated. *)

Record frame_request : Type := {
  req_frame : option string;
  req_session_id : option jval;
  req_sign_language : option string
}.

(** [SignLanguageType.objects.get(code=lang_code)] *)
Definition get_sign_language (code : string) (d : db) : result (option Z) :=
  match List.filter (fun kv => String.eqb (sl_code kv.2) code) (map_to_list (sign_languages d)) with
  | [] => Ok None
  | [(k, _)] => Ok (Some k)
  | _ => Err MultipleObjectsReturned
  end.

(** [session.sign_language = sl; session.save(update_fields=['sign_language'])]
    when the code is registered; [except DoesNotExist: pass]. *)
Definition set_session_variant (sid : Z) (code : string) : M unit :=
  fun d =>
    match get_sign_language code d with
    | Err e => (Err e, d)
    | Ok None => (Ok tt, d)
    | Ok (Some vid) =>
        (Ok tt, set_sessions d
           (alter (fun s => {| ts_user := ts_user s; ts_sign_language := Some vid;
                               ts_started_at := ts_started_at s;
                               ts_ended_at := ts_ended_at s; ts_status := ts_status s;
                               ts_device_info := ts_device_info s |}) sid (sessions d)))
    end.

(** [UserProfile.objects.get_or_create(user=request.user)] *)
Definition get_or_create_profile (u : Z) : M UserProfile :=
  fun d =>
    match profiles d !! u with
    | Some p => (Ok p, d)
    | None =>
        let p := {| up_role := "hearing"; up_total_translations := 0 |} in
        (Ok p, set_profiles d (<[u := p]> (profiles d)))
    end.

(** [UserProfile.objects.filter(pk=profile.pk).update(total_translations=v)] *)
Definition update_total_translations (u : Z) (v : Z) : M unit :=
  fun d =>
    (Ok tt, set_profiles d
       (alter (fun p => {| up_role := up_role p; up_total_translations := v |}) u (profiles d))).

(** Update user stats: the new value is computed in the view from the
    profile read by [get_or_create]. *)
Definition update_user_stats (user : option Z) : M unit :=
  match user with
  | None => ret tt
  | Some u =>
      let! profile := get_or_create_profile u in
      update_total_translations u (up_total_translations profile + 1)
  end.

(** NOT NULL text / char columns reject [None] on save. *)
Definition not_null (v : jval) : result unit :=
  match v with JNull => Err IntegrityError | _ => Ok tt end.

(** [record.save()]: returns the new primary key. *)
Definition insert_record (r : TranslationRecord) : M Z :=
  fun d =>
    let k := fresh_pk (records d) in
    (Ok k, set_records d (<[k := r]> (records d))).

(** Thumbnail: [base64.b64decode(frame_b64.split(",")[1])] or
    [base64.b64decode(frame_b64)]. *)
Definition decode_frame (frame_b64 : string) : result unit :=
  let? s := strip_data_uri frame_b64 in b64decode s.

(** Everything after the session lookup and the language update:
    run the AI, apply the 0.3 gate, save the record, update the stats.
    [record.save()] first prepares the column values ([float()] of the
    confidence), then the database checks the NOT NULL columns. The
    answer scales [record.confidence_score], the value assigned to the
    instance, which [save] does not convert. *)
Definition classify_and_record (env : ai_env) (now : Z) (user : option Z)
    (sid : Z) (frame_b64 lang_code : string) : M response :=
  let! ai_result := lift (analyze_sign_with_ai env frame_b64 lang_code) in
  let! c := lift (dict_get ai_result "confidence_score" (JInt 0)) in
  let! low := lift (py_lt c point_three) in
  if low then ret (Resp 200 BLowConfidence) else
  let! detected := lift (dict_get ai_result "detected_sign" (JStr "")) in
  let! translated := lift (dict_get ai_result "translated_text" (JStr "")) in
  let! conf := lift (dict_get ai_result "confidence_score" (JFloat (S754_zero false))) in
  let! _ := lift (decode_frame frame_b64) in
  let! cq := lift (py_float conf) in
  let! _ := lift (not_null detected) in
  let! _ := lift (not_null translated) in
  let! rid := insert_record
      {| tr_session := sid; tr_frame_image := true; tr_detected_sign := detected;
         tr_translated_text := translated; tr_confidence_score := cq;
         tr_created_at := now |} in
  let! _ := update_user_stats user in
  let! cs := lift (scale_confidence conf) in
  let! descr := lift (dict_get ai_result "description" (JStr "")) in
  ret (Resp 200 (BSuccess rid detected translated cs descr)).

Definition analyze_frame_body (env : ai_env) (now : Z) (user : option Z)
    (req : frame_request) : M response :=
  let frame_b64 := default "" (req_frame req) in
  let session_id := default JNull (req_session_id req) in
  let lang_code := default "ASL" (req_sign_language req) in
  if negb (truthy (JStr frame_b64)) || negb (truthy session_id)
  then ret (Resp 400 (BError EMissing))
  else
    let! s := get_object_or_404 sessions session_id in
    let! _ := set_session_variant s.1 lang_code in
    classify_and_record env now user s.1 frame_b64 lang_code.

Definition analyze_frame (env : ai_env) (now : Z) (user : option Z)
    (req : frame_request) (d : db) : response * db :=
  catch_500 (analyze_frame_body env now user req) d.

(* ------------------------------------------------------------------ *)
(** ** views.end_session *)

Record end_request : Type := { end_req_session_id : option jval }.

(** [session.status = 'completed'; session.ended_at = timezone.now();
    session.save(update_fields=['status', 'ended_at'])] *)
Definition complete_session (sid : Z) (now : Z) : M unit :=
  fun d =>
    (Ok tt, set_sessions d
       (alter (fun s => {| ts_user := ts_user s; ts_sign_language := ts_sign_language s;
                           ts_started_at := ts_started_at s; ts_ended_at := Some now;
                           ts_status := Completed; ts_device_info := ts_device_info s |})
          sid (sessions d))).

Definition end_session_body (now : Z) (req : end_request) : M response :=
  let! s := get_object_or_404 sessions (default JNull (end_req_session_id req)) in
  let! _ := complete_session s.1 now in
  ret (Resp 200 BOk).

Definition end_session (now : Z) (req : end_request) (d : db) : response * db :=
  catch_500 (end_session_body now req) d.

(* ------------------------------------------------------------------ *)
(** ** views.submit_feedback *)

Record feedback_request : Type := {
  fr_record_id : option jval;
  fr_rating : option jval;
  fr_correct_translation : option string;
  fr_comment : option string
}.

(** [Feedback.objects.create(...)]: no [full_clean], so the field's
    [choices] are not checked; the value goes through [int()]. *)
Definition insert_feedback (f : Feedback) : M Z :=
  fun d =>
    let k := fresh_pk (feedbacks d) in
    (Ok k, set_feedbacks d (<[k := f]> (feedbacks d))).

Definition submit_feedback_body (now : Z) (user : option Z)
    (req : feedback_request) : M response :=
  let! r := get_object_or_404 records (default JNull (fr_record_id req)) in
  let! rating := lift (int_field_prep (default (JInt 3) (fr_rating req))) in
  let! _ := insert_feedback
      {| fb_record := r.1; fb_user := user; fb_rating := rating;
         fb_correct_translation := default "" (fr_correct_translation req);
         fb_comment := default "" (fr_comment req); fb_submitted_at := now |} in
  ret (Resp 200 BThanks).

Definition submit_feedback (now : Z) (user : option Z) (req : feedback_request)
    (d : db) : response * db :=
  catch_500 (submit_feedback_body now user req) d.

(** [Feedback.RATING_CHOICES = [(i, str(i)) for i in range(1, 6)]] *)
Definition RATING_CHOICES : list Z := [1; 2; 3; 4; 5]%Z.

(* ------------------------------------------------------------------ *)
(** ** Concrete states and runs used by the examples below *)

Definition asl : SignLanguageType :=
  {| sl_name := "American Sign Language"; sl_code := "ASL"; sl_is_active := true |}.

Definition open_session (user : option Z) (now : Z) : TranslationSession :=
  {| ts_user := user; ts_sign_language := None; ts_started_at := now;
     ts_ended_at := None; ts_status := Active; ts_device_info := "" |}.

(** One registered language (pk 1), one open session (pk 1) of user 7,
    whose profile counts [n] translations. *)
Definition db0 (n : Z) : db :=
  {| sign_languages := {[ 1%Z := asl ]};
     sessions := {[ 1%Z := open_session (Some 7%Z) 100 ]};
     records := ∅;
     profiles := {[ 7%Z := {| up_role := "hearing"; up_total_translations := n |} ]};
     feedbacks := ∅ |}.

(** Gemini unreachable: every remote call raises. *)
Definition env_down (i : nat) : ai_env :=
  {| genai_importable := true; configure_ok := true; pil_importable := true;
     pil_open_ok := fun _ => true; gemini := fun _ _ => None;
     json_loads := fun _ => None; random_index := i |}.

(** Gemini answers, but with text [json.loads] rejects. *)
Definition env_garbled (i : nat) : ai_env :=
  {| genai_importable := true; configure_ok := true; pil_importable := true;
     pil_open_ok := fun _ => true; gemini := fun _ _ => Some "Sorry, no sign.";
     json_loads := fun _ => None; random_index := i |}.

(** Gemini answers with a fixed classification. *)
Definition env_answer (r : jval) : ai_env :=
  {| genai_importable := true; configure_ok := true; pil_importable := true;
     pil_open_ok := fun _ => true; gemini := fun _ _ => Some "{...}";
     json_loads := fun _ => Some r; random_index := 0 |}.

Definition classification (conf : spec_float) : jval :=
  JObj [("detected_sign", JStr "Hello"); ("translated_text", JStr "Hello!");
        ("confidence_score", JFloat conf); ("description", JStr "wave")].

(** A well-formed frame (base64 of three zero bytes after a data-URI header). *)
Definition good_frame : string := "data:image/jpeg;base64,AAAA".

Definition frame_req (frame : string) (sid : jval) : frame_request :=
  {| req_frame := Some frame; req_session_id := Some sid; req_sign_language := Some "ASL" |}.

(** The session row [end_session] writes. *)
Definition closed (s : TranslationSession) (now : Z) : TranslationSession :=
  {| ts_user := ts_user s; ts_sign_language := ts_sign_language s;
     ts_started_at := ts_started_at s; ts_ended_at := Some now;
     ts_status := Completed; ts_device_info := ts_device_info s |}.

(** [SignLanguageType.code] is declared [unique=True]. *)
Definition codes_unique (d : db) : Prop :=
  forall k1 k2 v1 v2, sign_languages d !! k1 = Some v1 -> sign_languages d !! k2 = Some v2 ->
    sl_code v1 = sl_code v2 -> k1 = k2.

(** The request for session [sid] as the camera page sends it. *)
Definition frame_request_for (frame : string) (sid : Z) (code : string) : frame_request :=
  {| req_frame := Some frame; req_session_id := Some (JInt sid);
     req_sign_language := Some code |}.

(** The 0.92 run of scenario 1: Gemini answers "Hello" at 0.92 for a
    signed-in user's well-formed frame. *)
Definition run_092 : response * db :=
  analyze_frame (env_answer (classification (f64_of_ratio 92 100))) 200 (Some 7%Z)
    (frame_request_for good_frame 1 "ASL") (db0 5).

(** [db0] with one stored record (pk 1) in session 1. *)
Definition db_with_record : db :=
  set_records (db0 5)
    {[ 1%Z := {| tr_session := 1; tr_frame_image := true; tr_detected_sign := JStr "Hello";
                 tr_translated_text := JStr "Hello!"; tr_confidence_score := f64_of_ratio 92 100;
                 tr_created_at := 200 |} ]}.

Definition feedback_req (record_id : Z) (rating : option jval) : feedback_request :=
  {| fr_record_id := Some (JInt record_id); fr_rating := rating;
     fr_correct_translation := None; fr_comment := None |}.

(* ------------------------------------------------------------------ *)
(** ** Concurrent requests: the user-stats update

    Django runs requests in parallel, each in autocommit mode. The stats
    update of [analyze_frame] is two database statements: the
    [get_or_create] read, and the [UPDATE ... SET total_translations = v]
    whose [v] the view computed from that read. A request is a thread at
    one of these points; a schedule lists which thread moves next. *)

Inductive stats_thread : Type :=
| Pending                          (* before get_or_create *)
| ReadDone (profile : UserProfile)  (* holds the profile it read *)
| Finished.

Definition stats_step (u : Z) (t : stats_thread) (d : db) : stats_thread * db :=
  match t with
  | Pending =>
      match get_or_create_profile u d with
      | (Ok p, d') => (ReadDone p, d')
      | (Err _, d') => (Finished, d')
      end
  | ReadDone p => (Finished, snd (update_total_translations u (up_total_translations p + 1) d))
  | Finished => (Finished, d)
  end.

Fixpoint run_schedule (u : Z) (sched : list nat) (ts : list stats_thread) (d : db)
  : list stats_thread * db :=
  match sched with
  | [] => (ts, d)
  | i :: rest =>
      match ts !! i with
      | Some t => let (t', d') := stats_step u t d in run_schedule u rest (<[i := t']> ts) d'
      | None => run_schedule u rest ts d
      end
  end.

(* ------------------------------------------------------------------ *)
(** ** views.translator_view and views.history *)

(** [SignLanguageType.objects.filter(is_active=True)]; the model has no
    [ordering], so the rows come in the table's order. *)
Definition active_sign_languages (d : db) : list Z :=
  (filter (fun kv => sl_is_active kv.2 = true) (map_to_list (sign_languages d))).*1.

(** [TranslationSession.objects.create(user=..., device_info=UA[:255])];
    the page context holds the new session and the active languages. *)
Definition translator_view (now : Z) (user : option Z) (user_agent : option string)
  : M (Z * list Z) :=
  fun d =>
    let k := fresh_pk (sessions d) in
    let s := {| ts_user := user; ts_sign_language := None; ts_started_at := now;
                ts_ended_at := None; ts_status := Active;
                ts_device_info := String.substring 0 255 (default "" user_agent) |} in
    (Ok (k, active_sign_languages d), set_sessions d (<[k := s]> (sessions d))).

(** [TranslationSession.objects.filter(user=request.user)
     .order_by('-started_at')[:20]]; [None] is the redirect to home of an
    anonymous visitor. Sessions with equal [started_at] come in pk order
    here; the database leaves their order open, and nothing below
    depends on it. *)
Definition newer_or_same (a b : Z * TranslationSession) : Prop :=
  (ts_started_at b.2 <= ts_started_at a.2)%Z.

#[export] Instance newer_or_same_dec : RelDecision newer_or_same :=
  fun a b => decide (ts_started_at b.2 <= ts_started_at a.2)%Z.

Definition history (user : option Z) (d : db) : option (list (Z * TranslationSession)) :=
  match user with
  | None => None
  | Some u =>
      Some (take 20 (merge_sort newer_or_same
                      (filter (fun kv => ts_user kv.2 = Some u) (map_to_list (sessions d)))))
  end.

(** The lifecycle the views keep: [ended_at] is set exactly when the
    session is no longer active. *)
Definition session_invariant (d : db) : Prop :=
  forall k s, sessions d !! k = Some s -> (ts_ended_at s = None <-> ts_status s = Active).

(* ------------------------------------------------------------------ *)
(** ** What a view may write

    [preserves R m]: whatever [m] answers or raises, the database it
    leaves is related by [R] to the one it started from. *)

Definition preserves (R : db -> db -> Prop) {A} (m : M A) : Prop :=
  forall d, R d (snd (m d)).

(** The columns of a session other than [sign_language]. *)
Definition sess_core (s : TranslationSession)
  : option Z * Z * option Z * session_status * string :=
  (ts_user s, ts_started_at s, ts_ended_at s, ts_status s, ts_device_info s).

(** Languages and feedback untouched; sessions changed at most in their
    [sign_language]. *)
Definition frame_rel (d d' : db) : Prop :=
  sign_languages d' = sign_languages d /\ feedbacks d' = feedbacks d /\
  (sess_core <$> sessions d') = (sess_core <$> sessions d).

Definition same_records (d d' : db) : Prop := records d' = records d.

Definition at_most_one_record (d d' : db) : Prop :=
  records d' = records d \/
  exists k r, records d !! k = None /\ records d' = <[k := r]> (records d).

(** No profile changes but possibly the one of [user]. *)
Definition profiles_outside (user : option Z) (d d' : db) : Prop :=
  forall k, Some k <> user -> profiles d' !! k = profiles d !! k.

Definition same_sessions (d d' : db) : Prop := sessions d' = sessions d.

(* ------------------------------------------------------------------ *)
(** ** management/commands/seed_data.py: [Command.handle]

    [description] is not a column of the [SignLanguageType] embedding
    above, so the seed dicts carry name and code here. Each step is
    [SignLanguageType.objects.get_or_create(code=..., defaults=lang)]; the
    output is the ([created], [obj.name], [obj.code]) of each line the
    command prints. *)

Definition set_sign_languages (d : db) m : db :=
  {| sign_languages := m; sessions := sessions d; records := records d;
     profiles := profiles d; feedbacks := feedbacks d |}.

Definition seed_languages : list (string * string) :=
  [("American Sign Language", "ASL"); ("British Sign Language", "BSL");
   ("Kenyan Sign Language", "KSL"); ("International Sign", "IS");
   ("Australian Sign Language", "AUSLAN")].

Definition get_or_create_language (lang : string * string) : M (bool * string * string) :=
  fun d =>
    match List.filter (fun kv => String.eqb (sl_code kv.2) lang.2)
            (map_to_list (sign_languages d)) with
    | [] =>
        let v := {| sl_name := lang.1; sl_code := lang.2; sl_is_active := true |} in
        (Ok (true, sl_name v, sl_code v),
         set_sign_languages d (<[fresh_pk (sign_languages d) := v]> (sign_languages d)))
    | [(_, v)] => (Ok (false, sl_name v, sl_code v), d)
    | _ => (Err MultipleObjectsReturned, d)
    end.

Fixpoint seed_all (langs : list (string * string)) : M (list (bool * string * string)) :=
  match langs with
  | [] => ret []
  | lang :: rest =>
      let! line := get_or_create_language lang in
      let! lines := seed_all rest in
      ret (line :: lines)
  end.

Definition handle : M (list (bool * string * string)) := seed_all seed_languages.

(** No language row carries [code]. *)
Definition code_absent (code : string) (d : db) : Prop :=
  map_Forall (fun _ v => sl_code v <> code) (sign_languages d).

#[export] Instance code_absent_dec (code : string) (d : db) : Decision (code_absent code d).
Proof. unfold code_absent. apply _. Defined.

(* ------------------------------------------------------------------ *)
(** ** views.auth_view

    [django.contrib.auth]'s [User] table sits beside the database above,
    keyed by primary key. What the view delegates to Django's hashing and
    Unicode code is a parameter: [unicodedata.normalize('NFKC', ...)] on
    a username, [make_password] (salted, so not a function of the raw
    password alone in Django; one fixed draw here), [check_password], the
    hasher's [must_update] on a stored hash, and the checks
    [HttpResponseRedirect] makes of a URL (its scheme, its length). *)

Record User : Type := {
  u_username : string;
  u_email : string;
  u_password : string;
  u_first_name : string;
  u_last_name : string;
  u_is_active : bool;
  u_last_login : option Z
}.

Record auth_env : Type := {
  normalize_username : string -> string;
  make_password : string -> string;
  check_password : string -> string -> bool;  (* raw, encoded *)
  must_update : string -> bool;               (* encoded *)
  redirect_allowed : string -> bool
}.

(** [request.user] ([Some pk] when authenticated), the POST form as sent
    ([None] for any other method), and [request.GET.get('next')]. *)
Record auth_request : Type := {
  ar_user : option Z;
  ar_post : option (list (string * string));
  ar_next : option string
}.

(** [QueryDict.get]: the last value sent for the key. *)
Fixpoint qd_get (k : string) (kvs : list (string * string)) : option string :=
  match kvs with
  | [] => None
  | (k', v) :: rest =>
      match qd_get k rest with
      | Some w => Some w
      | None => if String.eqb k' k then Some v else None
      end
  end.

Definition post_get (post : list (string * string)) (k dflt : string) : string :=
  default dflt (qd_get k post).

(** [Redirect to]: the answer of [redirect(to)], whose [Location] is
    [to], or the URL [reverse] gives when [to] is a route name. *)
Inductive auth_response : Type :=
| Redirect (to : string)
| RenderAuth (login_error : option string) (register_errors : list string) (form_type : string).

(** The route names of [translator/urls.py]. *)
Definition url_names : list string :=
  ["home"; "translator"; "about"; "history"; "login"; "register"; "logout";
   "analyze_frame"; "end_session"; "submit_feedback"].

Definition str_has (c : ascii) (s : string) : bool :=
  existsb (Ascii.eqb c) (list_ascii_of_string s).

(** [redirect(to)] on a string: [resolve_url] keeps a relative "./" or
    "../" URL, else tries [reverse(to)], and on [NoReverseMatch] re-raises
    unless [to] holds a '/' or a '.'; [HttpResponseRedirect] then refuses
    the URL its checks reject. *)
Definition redirect (env : auth_env) (to : string) : result auth_response :=
  let checked := if redirect_allowed env to then Ok (Redirect to)
                 else Err DisallowedRedirect in
  if String.prefix "./" to || String.prefix "../" to then checked
  else if existsb (String.eqb to) url_names then Ok (Redirect to)
  else if str_has "/" to || str_has "." to then checked
  else Err NoReverseMatch.

(** [User.objects.filter(username=...).exists()] and the same on [email]. *)
Definition username_taken (users : gmap Z User) (username : string) : bool :=
  existsb (fun kv => String.eqb (u_username kv.2) username) (map_to_list users).

Definition email_taken (users : gmap Z User) (email : string) : bool :=
  existsb (fun kv => String.eqb (u_email kv.2) email) (map_to_list users).

(** The validation of the register form, in the order of the source. *)
Definition register_errors (users : gmap Z User) (username email password1 password2 : string)
    (agree : option string) : list string :=
  ((if match agree with Some a => String.eqb a "" | None => true end
    then ["You must agree to the Terms of Service."] else []) ++
   (if String.eqb username "" then ["Username is required."]
    else if username_taken users username then ["That username is already taken."] else []) ++
   (if negb (String.eqb email "") && email_taken users email
    then ["An account with that email already exists."] else []) ++
   (if (String.length password1 <? 8)%nat then ["Password must be at least 8 characters."]
    else []) ++
   (if negb (String.eqb password1 password2) then ["Passwords do not match."] else []))%list.

(** [str.lower()] on the code points below 256. *)
Definition py_lower_char (c : ascii) : ascii :=
  let n := nat_of_ascii c in
  if ((65 <=? n) && (n <=? 90))%nat || ((192 <=? n) && (n <=? 222) && negb (n =? 215))%nat
  then ascii_of_nat (n + 32) else c.

Definition py_lower (s : string) : string :=
  string_of_list_ascii (map py_lower_char (list_ascii_of_string s)).

(** The text before and after the first '@'. *)
Fixpoint split_first_at (s : string) : option (string * string) :=
  match s with
  | EmptyString => None
  | String c rest =>
      if Ascii.eqb c "@" then Some (EmptyString, rest)
      else match split_first_at rest with
           | Some (a, b) => Some (String c a, b)
           | None => None
           end
  end.

(** [BaseUserManager.normalize_email]: [email.strip().rsplit('@', 1)], the
    domain part lower-cased; an address without '@' is kept. *)
Definition normalize_email (email : string) : string :=
  match split_first_at (rev_str (py_strip email)) with
  | None => email
  | Some (rdomain, rname) => rev_str rname ++ "@" ++ py_lower (rev_str rdomain)
  end.

(** [user.set_password(raw)] then [user.save(update_fields=["password"])]. *)
Definition set_user_password (uid : Z) (enc : string) (users : gmap Z User) : gmap Z User :=
  alter (fun u => {| u_username := u_username u; u_email := u_email u;
                     u_password := enc; u_first_name := u_first_name u;
                     u_last_name := u_last_name u; u_is_active := u_is_active u;
                     u_last_login := u_last_login u |}) uid users.

(** [authenticate(request, username=..., password=...)] with the
    [ModelBackend]: [get_by_natural_key], then [user.check_password], whose
    setter stores a new hash of a correct password when the stored one
    must be updated (an inactive user's too), then [user_can_authenticate]
    ([is_active]). *)
Definition authenticate (env : auth_env) (users : gmap Z User) (username password : string)
  : result (option Z) * gmap Z User :=
  match List.filter (fun kv => String.eqb (u_username kv.2) username) (map_to_list users) with
  | [] => (Ok None, users)
  | [(k, u)] =>
      let ok := check_password env password (u_password u) in
      let users' := if ok && must_update env (u_password u)
                    then set_user_password k (make_password env password) users
                    else users in
      (Ok (if ok && u_is_active u then Some k else None), users')
  | _ => (Err MultipleObjectsReturned, users)
  end.

(** [login(request, user)]: the [user_logged_in] signal stores [last_login]. *)
Definition set_last_login (uid : Z) (now : Z) (users : gmap Z User) : gmap Z User :=
  alter (fun u => {| u_username := u_username u; u_email := u_email u;
                     u_password := u_password u; u_first_name := u_first_name u;
                     u_last_name := u_last_name u; u_is_active := u_is_active u;
                     u_last_login := Some now |}) uid users.

(** [User.objects.create_user(...)] (the username column is unique),
    [UserProfile.objects.create(user=user, role=role)] (one profile per
    user), then [login]. *)
Definition create_account (env : auth_env) (now : Z)
    (first_name last_name username email password1 role : string)
    (users : gmap Z User) (d : db) : result Z * gmap Z User * db :=
  let uname := normalize_username env username in
  if username_taken users uname then (Err IntegrityError, users, d) else
  let uid := fresh_pk users in
  let u := {| u_username := uname; u_email := normalize_email email;
              u_password := make_password env password1; u_first_name := first_name;
              u_last_name := last_name; u_is_active := true; u_last_login := None |} in
  let users1 := <[uid := u]> users in
  match profiles d !! uid with
  | Some _ => (Err IntegrityError, users1, d)
  | None =>
      (Ok uid, set_last_login uid now users1,
       set_profiles d (<[uid := {| up_role := role; up_total_translations := 0 |}]> (profiles d)))
  end.

Definition auth_view (env : auth_env) (now : Z) (req : auth_request)
    (users : gmap Z User) (d : db) : result auth_response * gmap Z User * db :=
  match ar_user req with
  | Some _ => (redirect env "home", users, d)
  | None =>
  match ar_post req with
  | None => (Ok (RenderAuth None [] "login"), users, d)
  | Some post =>
      let form_type := post_get post "form_type" "login" in
      if String.eqb form_type "login" then
        let username := py_strip (post_get post "username" "") in
        let password := post_get post "password" "" in
        match authenticate env users username password with
        | (Err e, users1) => (Err e, users1, d)
        | (Ok (Some uid), users1) =>
            (redirect env (default "home" (ar_next req)), set_last_login uid now users1, d)
        | (Ok None, users1) =>
            (Ok (RenderAuth (Some "Invalid username or password. Please try again.")
                            [] form_type), users1, d)
        end
      else if String.eqb form_type "register" then
        let first_name := py_strip (post_get post "first_name" "") in
        let last_name := py_strip (post_get post "last_name" "") in
        let username := py_strip (post_get post "username" "") in
        let email := py_strip (post_get post "email" "") in
        let password1 := post_get post "password1" "" in
        let password2 := post_get post "password2" "" in
        let role := post_get post "role" "hearing" in
        let agree := qd_get "agree_terms" post in
        match register_errors users username email password1 password2 agree with
        | [] =>
            match create_account env now first_name last_name username email password1 role
                    users d with
            | (Ok _, users', d') => (redirect env "home", users', d')
            | (Err e, users', d') => (Err e, users', d')
            end
        | errs => (Ok (RenderAuth None errs form_type), users, d)
        end
      else (Ok (RenderAuth None [] form_type), users, d)
  end
  end.

(** An authentication backend for examples: usernames kept as typed,
    passwords stored as ["hash$" ++ raw], hashes never outdated, redirects
    to URLs without a scheme only. *)
Definition demo_auth_env : auth_env :=
  {| normalize_username := fun s => s;
     make_password := fun p => String.append "hash$" p;
     check_password := fun raw enc => String.eqb enc (String.append "hash$" raw);
     must_update := fun _ => false;
     redirect_allowed := fun u => negb (str_has ":" u) |}.

(** One registered user (pk 1), active, never logged in. *)
Definition demo_users : gmap Z User :=
  {[ 1%Z := {| u_username := "amina"; u_email := "amina@example.com";
               u_password := "hash$signs4all"; u_first_name := "Amina";
               u_last_name := "Otieno"; u_is_active := true; u_last_login := None |} ]}.

Definition demo_register_post : list (string * string) :=
  [("form_type", "register"); ("username", " brian "); ("email", "Brian@Example.COM");
   ("first_name", "Brian"); ("last_name", "Kip"); ("password1", "signs4all");
   ("password2", "signs4all"); ("agree_terms", "on"); ("role", "deaf")].

Definition demo_bad_register_post : list (string * string) :=
  [("form_type", "register"); ("username", "amina"); ("password1", "short");
   ("password2", "short")].


(* ================================================================== *)
(** * Properties *)

Lemma bind_Ok {A B} (m : result A) (k : A -> result B) (b : B) :
  bind m k = Ok b -> exists a, m = Ok a /\ k a = Ok b.
Proof. destruct m; simpl; [eauto | discriminate]. Qed.

(** A run of the [try] block that returns has reached Gemini and
    [json.loads], and both succeeded. *)
Lemma ai_try_Ok_inv env img code r :
  ai_try env img code = Ok r ->
  exists img' raw text, strip_data_uri img = Ok img' /\ gemini env code img' = Some raw /\
    strip_fences (py_strip raw) = Ok text /\ json_loads env text = Some r.
Proof.
  unfold ai_try. intros H.
  repeat (apply bind_Ok in H as [? [? H]]).
  destruct (gemini env code _) eqn:G; [|discriminate].
  simplify_eq/=.
  repeat (apply bind_Ok in H as [? [? H]]).
  destruct (json_loads env _) eqn:J; [|discriminate].
  simplify_eq/=. eauto 10.
Qed.

Lemma demo_response_in i : In (_demo_response i) demo_signs.
Proof.
  unfold _demo_response. apply nth_In.
  apply Nat.mod_upper_bound. discriminate.
Qed.

Lemma demo_signs_shape r :
  In r demo_signs -> exists sign text conf descr, r = demo_sign sign text conf descr
                      /\ SFleb (f64_of_ratio 85 100) conf = true
                      /\ py_lt (JFloat conf) point_three = Ok false
                      /\ match scale_confidence (JFloat conf) with Ok _ => true | Err _ => false end = true.
Proof.
  simpl. intros H.
  repeat destruct H as [<- | H];
    try (do 4 eexists; split; [reflexivity | split; [|split]; vm_compute; reflexivity]).
  contradiction.
Qed.

Lemma analyze_sign_with_ai_fallback env img code e :
  ai_try env img code = Err e ->
  analyze_sign_with_ai env img code = Ok (_demo_response (random_index env)).
Proof. unfold analyze_sign_with_ai. intros ->. destruct e; reflexivity. Qed.

Lemma analyze_sign_with_ai_Ok env img code :
  exists r, analyze_sign_with_ai env img code = Ok r /\
            (forall e, ai_try env img code = Err e -> In r demo_signs).
Proof.
  unfold analyze_sign_with_ai.
  destruct (ai_try env img code) as [r|e] eqn:T.
  - exists r. split; [reflexivity | discriminate].
  - exists (_demo_response (random_index env)).
    split; [destruct e; reflexivity|]. intros; apply demo_response_in.
Qed.

(** C2. [analyze_sign_with_ai] never raises: for every frame and code it
    returns a value. When, in this call, the remote Gemini call on the
    frame's image raises, or the text it answers is not JSON once the
    fences are stripped, the value is an entry of the [_demo_response]
    catalog, a dict with the keys detected_sign, translated_text,
    confidence_score and description; so is it whenever any step of the
    [try] block raises. *)
Theorem analyze_sign_with_ai_never_raises (env : ai_env) (img code : string) :
  (exists r, analyze_sign_with_ai env img code = Ok r) /\
  ((forall e, ai_try env img code = Err e ->
    analyze_sign_with_ai env img code = Ok (_demo_response (random_index env)))) /\
  ((forall img', strip_data_uri img = Ok img' -> gemini env code img' = None) \/
   (forall img' raw text, strip_data_uri img = Ok img' -> gemini env code img' = Some raw ->
      strip_fences (py_strip raw) = Ok text -> json_loads env text = None) ->
   exists r, analyze_sign_with_ai env img code = Ok r /\ In r demo_signs /\
     exists sign text conf descr,
       r = JObj [("detected_sign", JStr sign); ("translated_text", JStr text);
                 ("confidence_score", JFloat conf); ("description", JStr descr)]).
Proof.
  destruct (analyze_sign_with_ai_Ok env img code) as [r [Hr Hin]].
  split; [eauto|]. split; [apply analyze_sign_with_ai_fallback|]. intros Hfail.
  destruct (ai_try env img code) as [r'|e] eqn:T.
  - exfalso. apply ai_try_Ok_inv in T as (img' & raw & text & Hs & G & F & J).
    destruct Hfail as [Hg | Hj].
    + rewrite (Hg img' Hs) in G. discriminate.
    + rewrite (Hj img' raw text Hs G F) in J. discriminate.
  - exists r. specialize (Hin e eq_refl). split; [exact Hr|]. split; [exact Hin|].
    destruct (demo_signs_shape r Hin) as (s & t & c & d & -> & _). eauto.
Qed.

(** Both failures, on the same frame: Gemini down, and Gemini answering
    text that is not JSON. *)
Lemma analyze_sign_with_ai_never_raises_witness :
  (exists r, analyze_sign_with_ai (env_down 0) good_frame "ASL" = Ok r /\ In r demo_signs /\
     exists sign text conf descr,
       r = JObj [("detected_sign", JStr sign); ("translated_text", JStr text);
                 ("confidence_score", JFloat conf); ("description", JStr descr)]) /\
  (exists r, analyze_sign_with_ai (env_garbled 3) good_frame "ASL" = Ok r /\ In r demo_signs /\
     exists sign text conf descr,
       r = JObj [("detected_sign", JStr sign); ("translated_text", JStr text);
                 ("confidence_score", JFloat conf); ("description", JStr descr)]).
Proof.
  split.
  - apply (proj2 (proj2 (analyze_sign_with_ai_never_raises (env_down 0) good_frame "ASL"))).
    left. intros. reflexivity.
  - apply (proj2 (proj2 (analyze_sign_with_ai_never_raises (env_garbled 3) good_frame "ASL"))).
    right. intros. reflexivity.
Defined.

Lemma pk_prep_int (n : Z) : pk_prep (JInt n) = Ok (Some n).
Proof. reflexivity. Qed.

Lemma truthy_int (n : Z) : n <> 0%Z -> truthy (JInt n) = true.
Proof. intros Hn. simpl. apply Z.eqb_neq in Hn. rewrite Hn. reflexivity. Qed.

Lemma truthy_str (s : string) : s <> "" -> truthy (JStr s) = true.
Proof. intros Hs. simpl. destruct (String.eqb_spec s ""); [contradiction|reflexivity]. Qed.

Lemma get_object_or_404_int {A} (tbl : db -> gmap Z A) (n : Z) (d : db) :
  get_object_or_404 tbl (JInt n) d =
    match tbl d !! n with Some x => (Ok (n, x), d) | None => (Err Http404, d) end.
Proof. unfold get_object_or_404. rewrite pk_prep_int. reflexivity. Qed.

Lemma alter_lookup_Some {A} (f : A -> A) (k : Z) (m : gmap Z A) (x : A) :
  m !! k = Some x -> alter f k m = <[k := f x]> m.
Proof.
  intros H. apply map_eq. intros j. rewrite lookup_alter, lookup_insert.
  case_decide; subst; [rewrite H|]; reflexivity.
Qed.

Lemma filter_all_false {A} (p : A -> bool) (l : list A) :
  (forall x, In x l -> p x = false) -> List.filter p l = [].
Proof.
  induction l as [|x l IH]; simpl; intros H; [reflexivity|].
  rewrite (H x (or_introl eq_refl)). apply IH. eauto.
Qed.

Lemma get_sign_language_unknown (code : string) (d : db) :
  (forall k v, sign_languages d !! k = Some v -> sl_code v <> code) ->
  get_sign_language code d = Ok None.
Proof.
  intros H. unfold get_sign_language. rewrite filter_all_false; [reflexivity|].
  intros [k v] Hin. apply list_elem_of_In, elem_of_map_to_list in Hin.
  simpl. destruct (String.eqb_spec (sl_code v) code); [|reflexivity].
  exfalso. exact (H k v Hin e).
Qed.

Lemma get_sign_language_total (code : string) (d : db) :
  codes_unique d -> exists o, get_sign_language code d = Ok o.
Proof.
  intros U. unfold get_sign_language.
  pose proof (NoDup_map_to_list (sign_languages d)) as ND.
  apply NoDup_ListNoDup in ND.
  pose proof (List.NoDup_filter (fun kv : Z * SignLanguageType => String.eqb (sl_code kv.2) code) ND) as NDf.
  destruct (List.filter _ _) as [|[k1 v1] [|[k2 v2] rest]] eqn:F; eauto.
  exfalso.
  assert (I1 : In (k1, v1) (List.filter (fun kv : Z * SignLanguageType => String.eqb (sl_code kv.2) code)
                   (map_to_list (sign_languages d)))) by (rewrite F; simpl; auto).
  assert (I2 : In (k2, v2) (List.filter (fun kv : Z * SignLanguageType => String.eqb (sl_code kv.2) code)
                   (map_to_list (sign_languages d)))) by (rewrite F; simpl; auto).
  apply filter_In in I1 as [I1 C1], I2 as [I2 C2]. simpl in C1, C2.
  apply String.eqb_eq in C1, C2.
  apply list_elem_of_In, elem_of_map_to_list in I1, I2.
  assert (k1 = k2) as <- by (eapply U; eauto; congruence).
  rewrite I1 in I2. injection I2 as <-.
  inversion NDf as [|? ? Hnot]. apply Hnot. simpl. auto.
Qed.

(** C4. [end_session] on a missing session (absent, [null] or an unused
    id) raises [Http404], reported as a 500 error, and writes nothing; on
    an existing session, whatever its status, it answers [{'status':
    'ok'}] and stores [status='completed'] and [ended_at=now]; closing
    it again later answers ok and re-stamps [ended_at] with the new time. *)
Theorem end_session_closes (now : Z) (sid : Z) (d : db) :
  (sessions d !! sid = None ->
     end_session now {| end_req_session_id := Some (JInt sid) |} d
       = (Resp 500 (BError (EExn Http404)), d)) /\
  end_session now {| end_req_session_id := None |} d = (Resp 500 (BError (EExn Http404)), d) /\
  (forall s, sessions d !! sid = Some s ->
     end_session now {| end_req_session_id := Some (JInt sid) |} d
       = (Resp 200 BOk, set_sessions d (<[sid := closed s now]> (sessions d)))) /\
  (forall s later, sessions d !! sid = Some s ->
     let d1 := snd (end_session now {| end_req_session_id := Some (JInt sid) |} d) in
     sessions d1 !! sid = Some (closed s now) /\ ts_status (closed s now) = Completed /\
     end_session later {| end_req_session_id := Some (JInt sid) |} d1
       = (Resp 200 BOk, set_sessions d (<[sid := closed s later]> (sessions d)))).
Proof.
  unfold end_session, catch_500, end_session_body, mbind. simpl.
  rewrite !get_object_or_404_int.
  split; [intros ->; reflexivity|].
  split; [reflexivity|].
  split.
  - intros s H. rewrite H. unfold complete_session. simpl.
    erewrite alter_lookup_Some by exact H. reflexivity.
  - intros s later H. rewrite H. unfold complete_session. simpl.
    erewrite alter_lookup_Some by exact H. simpl.
    rewrite lookup_insert_eq. split; [reflexivity|]. split; [reflexivity|].
    erewrite alter_lookup_Some by (simpl; apply lookup_insert_eq).
    unfold set_sessions. simpl. rewrite insert_insert_eq. reflexivity.
Qed.

Lemma end_session_closes_witness :
  sessions (db0 5) !! 2%Z = None /\
  end_session 300 {| end_req_session_id := Some (JInt 2) |} (db0 5)
    = (Resp 500 (BError (EExn Http404)), db0 5).
Proof.
  split; [reflexivity|].
  apply (proj1 (end_session_closes 300 2 (db0 5))). reflexivity.
Defined.

Lemma frame_guard_passes (f : string) (sid : Z) :
  f <> "" -> sid <> 0%Z ->
  (negb (truthy (JStr f)) || negb (truthy (JInt sid))) = false.
Proof. intros Hf Hs. rewrite truthy_str, truthy_int by assumption. reflexivity. Qed.

(** C5. A language code no [SignLanguageType] carries leaves the database
    as it is and raises nothing ([except DoesNotExist: pass]); in
    [analyze_frame] on an existing session the request then goes on to the
    AI classification exactly as if the lookup had not happened. *)
Theorem unknown_sign_language_is_no_op (sid : Z) (code : string) (d : db) :
  (forall k v, sign_languages d !! k = Some v -> sl_code v <> code) ->
  set_session_variant sid code d = (Ok tt, d) /\
  (forall env now user f s, f <> "" -> sid <> 0%Z -> sessions d !! sid = Some s ->
     analyze_frame_body env now user (frame_request_for f sid code) d
       = classify_and_record env now user sid f code d).
Proof.
  intros Hunk.
  assert (Hset : set_session_variant sid code d = (Ok tt, d)).
  { unfold set_session_variant. rewrite get_sign_language_unknown by exact Hunk. reflexivity. }
  split; [exact Hset|].
  intros env now user f s Hf Hs Hsid.
  unfold analyze_frame_body, frame_request_for. cbn [default from_option id req_frame req_session_id req_sign_language].
  rewrite frame_guard_passes by assumption.
  unfold mbind at 1. rewrite get_object_or_404_int, Hsid. simpl.
  unfold mbind. rewrite Hset. reflexivity.
Qed.

Lemma unknown_sign_language_is_no_op_witness :
  set_session_variant 1 "KSL" (db0 5) = (Ok tt, db0 5).
Proof.
  apply (unknown_sign_language_is_no_op 1 "KSL" (db0 5)).
  intros k v H. destruct (decide (k = 1%Z)) as [->|Hk].
  - simpl in H. injection H as <-. discriminate.
  - simpl in H. rewrite lookup_singleton_ne in H by congruence. discriminate.
Defined.

(** C7 (as the code has it). [analyze_frame] answers 400 "Missing frame
    or session_id" whenever the frame is absent or empty or the
    session_id is absent or falsy ([null], [0], [""], [false]), before
    any lookup; with a non-empty frame and a non-zero integer session_id
    naming no session it raises [Http404] (NotFound), reported as a 500
    error; so it does for any truthy session_id that [int()] turns into
    the key of no session (a float is truncated). A truthy session_id
    [int()] rejects (a string that is not an integer, a list, a dict)
    raises that error instead, also reported as a 500 error. No path
    writes to the database. *)
Theorem analyze_frame_preconditions (env : ai_env) (now : Z) (user : option Z)
    (req : frame_request) (d : db) :
  ((negb (truthy (JStr (default "" (req_frame req))))
    || negb (truthy (default JNull (req_session_id req)))) = true ->
     analyze_frame env now user req d = (Resp 400 (BError EMissing), d)) /\
  (forall f n, req_frame req = Some f -> f <> "" ->
     req_session_id req = Some (JInt n) -> n <> 0%Z -> sessions d !! n = None ->
     analyze_frame env now user req d = (Resp 500 (BError (EExn Http404)), d)) /\
  (forall f v n, req_frame req = Some f -> f <> "" ->
     req_session_id req = Some v -> truthy v = true -> pk_prep v = Ok (Some n) ->
     sessions d !! n = None ->
     analyze_frame env now user req d = (Resp 500 (BError (EExn Http404)), d)) /\
  (forall f v e, req_frame req = Some f -> f <> "" ->
     req_session_id req = Some v -> truthy v = true -> pk_prep v = Err e ->
     analyze_frame env now user req d = (Resp 500 (BError (EExn e)), d)).
Proof.
  unfold analyze_frame, catch_500, analyze_frame_body.
  split; [|split; [|split]].
  - intros H. rewrite H. reflexivity.
  - intros f n Hf Hne Hsid Hn Hnone. rewrite Hf, Hsid. cbn [default from_option id].
    rewrite frame_guard_passes by assumption.
    unfold mbind. rewrite get_object_or_404_int, Hnone. reflexivity.
  - intros f v n Hf Hne Hsid Hv Hp Hnone. rewrite Hf, Hsid. cbn [default from_option id].
    rewrite truthy_str, Hv by assumption. simpl.
    unfold mbind, get_object_or_404. rewrite Hp, Hnone. reflexivity.
  - intros f v e Hf Hne Hsid Hv Hp. rewrite Hf, Hsid. cbn [default from_option id].
    rewrite truthy_str, Hv by assumption. simpl.
    unfold mbind, get_object_or_404. rewrite Hp. reflexivity.
Qed.

Lemma analyze_frame_preconditions_witness :
  analyze_frame (env_down 0) 200 None
    {| req_frame := Some good_frame; req_session_id := Some (JInt 0);
       req_sign_language := None |} (db0 5)
    = (Resp 400 (BError EMissing), db0 5) /\
  analyze_frame (env_down 0) 200 None (frame_req good_frame (JStr "x")) (db0 5)
    = (Resp 500 (BError (EExn ValueError)), db0 5) /\
  analyze_frame (env_down 0) 200 None (frame_req good_frame (JFloat (f64_of_ratio 5 2))) (db0 5)
    = (Resp 500 (BError (EExn Http404)), db0 5).
Proof.
  split; [|split].
  - apply (analyze_frame_preconditions (env_down 0) 200 None). reflexivity.
  - apply (proj2 (proj2 (proj2 (analyze_frame_preconditions (env_down 0) 200 None
             (frame_req good_frame (JStr "x")) (db0 5)))) good_frame (JStr "x") ValueError);
      [reflexivity | discriminate | reflexivity | reflexivity | reflexivity].
  - apply (proj1 (proj2 (proj2 (analyze_frame_preconditions (env_down 0) 200 None
             (frame_req good_frame (JFloat (f64_of_ratio 5 2))) (db0 5))))
             good_frame (JFloat (f64_of_ratio 5 2)) 2%Z);
      [reflexivity | discriminate | reflexivity | vm_compute; reflexivity
      | vm_compute; reflexivity | reflexivity].
Defined.

(** C7 as stated fails: a session_id that does not reference a session
    need not fail with NotFound. The string "abc" raises [ValueError] in
    [int()] (a 500 error, not NotFound), and the float 1.5, which names
    no session, is truncated to the key 1 of an existing session, whose
    frame is then classified and stored. *)
Lemma analyze_frame_session_id_not_404 :
  analyze_frame (env_down 0) 200 None (frame_req good_frame (JStr "abc")) (db0 5)
    = (Resp 500 (BError (EExn ValueError)), db0 5) /\
  fst (analyze_frame (env_down 0) 200 None (frame_req good_frame (JStr "abc")) (db0 5))
    <> Resp 500 (BError (EExn Http404)) /\
  (f64_to_Q (f64_of_ratio 3 2) == 3 # 2)%Q /\
  option_map tr_session
    (records (snd (analyze_frame (env_down 0) 200 None
                    (frame_req good_frame (JFloat (f64_of_ratio 3 2))) (db0 5))) !! 1%Z)
    = Some 1%Z.
Proof.
  split; [reflexivity|]. split; [discriminate|].
  split; vm_compute; reflexivity.
Qed.

(** C8. [submit_feedback] whose record_id is absent, [null] or an
    integer naming no [TranslationRecord] raises [Http404] (NotFound,
    reported as a 500 error) before [Feedback.objects.create]: the
    database, and so the feedback table, is unchanged. *)
Theorem submit_feedback_unknown_record (now : Z) (user : option Z)
    (req : feedback_request) (d : db) :
  (fr_record_id req = None \/ fr_record_id req = Some JNull \/
   exists n, fr_record_id req = Some (JInt n) /\ records d !! n = None) ->
  submit_feedback now user req d = (Resp 500 (BError (EExn Http404)), d).
Proof.
  unfold submit_feedback, catch_500, submit_feedback_body, mbind.
  intros [H | [H | [n [H Hn]]]]; rewrite H; simpl default.
  - reflexivity.
  - reflexivity.
  - rewrite get_object_or_404_int, Hn. reflexivity.
Qed.

Lemma submit_feedback_unknown_record_witness :
  submit_feedback 300 None
    {| fr_record_id := Some (JInt 42); fr_rating := None;
       fr_correct_translation := None; fr_comment := None |} (db0 5)
    = (Resp 500 (BError (EExn Http404)), db0 5).
Proof.
  apply submit_feedback_unknown_record. right; right.
  exists 42%Z. split; reflexivity.
Defined.

Lemma Qlt_bool_iff (x y : Q) : Qlt_bool x y = true <-> (x < y)%Q.
Proof.
  unfold Qlt_bool. rewrite negb_true_iff. split.
  - intros H. apply Qnot_le_lt. intros Hle. apply Qle_bool_iff in Hle. congruence.
  - intros H. destruct (Qle_bool y x) eqn:E; [|reflexivity].
    apply Qle_bool_iff in E. exfalso. exact (Qlt_not_le _ _ H E).
Qed.

Lemma fresh_pk_free {A} (m : gmap Z A) : m !! fresh_pk m = None.
Proof.
  assert (Hb : forall k v, m !! k = Some v ->
            (k <= map_fold (fun k (_ : A) acc => Z.max k acc) 0 m)%Z).
  { revert m. apply (map_fold_weak_ind (fun r m => forall k v, m !! k = Some v -> (k <= r)%Z)).
    - intros k v H. rewrite lookup_empty in H. discriminate.
    - intros i x m r Hi IH k v H. rewrite lookup_insert in H. case_decide.
      + subst. lia.
      + specialize (IH k v H). lia. }
  unfold fresh_pk. destruct (m !! _) as [v|] eqn:E; [|reflexivity].
  apply Hb in E. lia.
Qed.

Lemma set_session_variant_tables (sid : Z) (code : string) (d : db) :
  codes_unique d ->
  exists d1, set_session_variant sid code d = (Ok tt, d1) /\
             records d1 = records d /\ profiles d1 = profiles d.
Proof.
  intros U. destruct (get_sign_language_total code d U) as [[vid|] Hg];
    unfold set_session_variant; rewrite Hg; eauto.
Qed.

(** [analyze_frame] on an existing session reduces to
    [classify_and_record], after a language update that touches neither
    the records nor the profiles. *)
Lemma analyze_frame_existing (env : ai_env) (now : Z) (user : option Z)
    (f : string) (sid : Z) (code : string) (s : TranslationSession) (d : db) :
  f <> "" -> sid <> 0%Z -> sessions d !! sid = Some s -> codes_unique d ->
  exists d1, records d1 = records d /\ profiles d1 = profiles d /\
    analyze_frame env now user (frame_request_for f sid code) d
      = catch_500 (classify_and_record env now user sid f code) d1.
Proof.
  intros Hf Hs Hsid U.
  destruct (set_session_variant_tables sid code d U) as (d1 & Hset & Hr & Hp).
  exists d1. split; [exact Hr|]. split; [exact Hp|].
  unfold analyze_frame, catch_500, analyze_frame_body, frame_request_for.
  cbn [default from_option id req_frame req_session_id req_sign_language].
  rewrite frame_guard_passes by assumption.
  unfold mbind at 1. rewrite get_object_or_404_int, Hsid. simpl.
  unfold mbind at 1. rewrite Hset. reflexivity.
Qed.

Lemma update_user_stats_records (user : option Z) (d : db) :
  exists d', update_user_stats user d = (Ok tt, d') /\ records d' = records d.
Proof.
  destruct user as [u|]; [|simpl; eauto].
  unfold update_user_stats, mbind, get_or_create_profile, update_total_translations.
  destruct (profiles d !! u); simpl; eauto.
Qed.

Section Classify.
(** One classification: the AI helper returned the dict [kvs]; [c] is
    [ai_result.get('confidence_score', 0)], the value the gate compares
    with 0.3 and the record stores. *)
Variables (env : ai_env) (now : Z) (user : option Z) (sid : Z) (f code : string).
Variables (kvs : list (string * jval)) (c : jval).
Hypothesis Hai : analyze_sign_with_ai env f code = Ok (JObj kvs).
Hypothesis Hc : default (JInt 0) (assoc_last "confidence_score" kvs) = c.

Let detected := default (JStr "") (assoc_last "detected_sign" kvs).
Let translated := default (JStr "") (assoc_last "translated_text" kvs).
Let descr := default (JStr "") (assoc_last "description" kvs).

(** Past the gate the key is present, so the record's default 0.0 is
    not used either. *)
Lemma classify_conf_present :
  py_lt c point_three = Ok false ->
  assoc_last "confidence_score" kvs = Some c /\
  default (JFloat (S754_zero false)) (assoc_last "confidence_score" kvs) = c.
Proof.
  intros Hlow. rewrite <- Hc in *.
  destruct (assoc_last "confidence_score" kvs); [auto|].
  vm_compute in Hlow. discriminate.
Qed.

Lemma classify_low (d1 : db) :
  py_lt c point_three = Ok true ->
  classify_and_record env now user sid f code d1 = (Ok (Resp 200 BLowConfidence), d1).
Proof.
  intros Hlt. unfold classify_and_record, mbind, lift. rewrite Hai. simpl.
  rewrite Hc, Hlt. reflexivity.
Qed.

Lemma classify_gate_error (d1 : db) (e : exn) :
  py_lt c point_three = Err e ->
  classify_and_record env now user sid f code d1 = (Err e, d1).
Proof.
  intros Hlt. unfold classify_and_record, mbind, lift. rewrite Hai. simpl.
  rewrite Hc, Hlt. reflexivity.
Qed.

Lemma classify_high_fail (d1 : db) :
  py_lt c point_three = Ok false ->
  (exists e, decode_frame f = Err e) \/ (exists e, py_float c = Err e) \/
  detected = JNull \/ translated = JNull ->
  exists e, classify_and_record env now user sid f code d1 = (Err e, d1).
Proof.
  intros Hge Hbad. destruct (classify_conf_present Hge) as [_ Hconf].
  unfold classify_and_record, mbind, lift. rewrite Hai. simpl.
  rewrite Hc, Hge. simpl. rewrite Hconf.
  destruct (decode_frame f) as [[]|e] eqn:Hd; [|eauto]. simpl.
  destruct (py_float c) as [cq|e] eqn:Hf; [|eauto]. simpl.
  unfold detected, translated in Hbad.
  destruct Hbad as [[e He] | [[e He] | [-> | ->]]]; [congruence|congruence| |].
  - simpl. eauto.
  - destruct (default (JStr "") (assoc_last "detected_sign" kvs)); simpl; eauto.
Qed.

Lemma classify_high_ok (d1 : db) (cq : spec_float) :
  py_lt c point_three = Ok false -> decode_frame f = Ok tt -> py_float c = Ok cq ->
  detected <> JNull -> translated <> JNull ->
  exists d2,
    records d2 = <[fresh_pk (records d1) :=
                     {| tr_session := sid; tr_frame_image := true;
                        tr_detected_sign := detected; tr_translated_text := translated;
                        tr_confidence_score := cq; tr_created_at := now |}]> (records d1) /\
    classify_and_record env now user sid f code d1
      = (match scale_confidence c with
         | Ok cs => Ok (Resp 200 (BSuccess (fresh_pk (records d1)) detected translated cs descr))
         | Err e => Err e
         end, d2).
Proof.
  intros Hge Hdec Hcq Hdn Htn. destruct (classify_conf_present Hge) as [_ Hconf].
  unfold classify_and_record, mbind, lift. rewrite Hai. simpl.
  rewrite Hc, Hge. simpl. rewrite Hconf, Hdec, Hcq. simpl. unfold detected, translated in *.
  assert (Hnn : forall v, v <> JNull -> not_null v = Ok tt) by (intros [] H; [contradiction|reflexivity..]).
  rewrite (Hnn _ Hdn), (Hnn _ Htn). simpl.
  match goal with
  | |- context [update_user_stats user ?dd] =>
      destruct (update_user_stats_records user dd) as [d2 [Hu Hr]]; rewrite Hu
  end.
  exists d2. split; [rewrite Hr; reflexivity|].
  destruct (scale_confidence c); reflexivity.
Qed.
End Classify.

Lemma mbind_Ok {A B} (m : M A) (k : A -> M B) (d : db) (b : B) (d'' : db) :
  mbind m k d = (Ok b, d'') -> exists a d0, m d = (Ok a, d0) /\ k a d0 = (Ok b, d'').
Proof. unfold mbind. destruct (m d) as [[a|e] d0]; [eauto | discriminate]. Qed.

Lemma catch_500_eq (m : M response) (d : db) (r : result response) (d' : db) :
  m d = (r, d') ->
  catch_500 m d = (match r with Ok x => x | Err e => Resp 500 (BError (EExn e)) end, d').
Proof. unfold catch_500. intros ->. destruct r; reflexivity. Qed.

Lemma lift_Ok {A} (r : result A) (d : db) (a : A) (d' : db) :
  lift r d = (Ok a, d') -> r = Ok a /\ d' = d.
Proof. unfold lift. intros H. injection H as -> ->. auto. Qed.

(** The outcomes of a submission on an existing session with a dict
    classification. *)
Lemma frame_outcome (env : ai_env) (now : Z) (user : option Z)
    (f : string) (sid : Z) (code : string) (s : TranslationSession) (d : db)
    (kvs : list (string * jval)) (c : jval) :
  f <> "" -> sid <> 0%Z -> sessions d !! sid = Some s -> codes_unique d ->
  analyze_sign_with_ai env f code = Ok (JObj kvs) ->
  default (JInt 0) (assoc_last "confidence_score" kvs) = c ->
  let detected := default (JStr "") (assoc_last "detected_sign" kvs) in
  let translated := default (JStr "") (assoc_last "translated_text" kvs) in
  let descr := default (JStr "") (assoc_last "description" kvs) in
  let (resp, d') := analyze_frame env now user (frame_request_for f sid code) d in
  (py_lt c point_three = Ok true ->
     resp = Resp 200 BLowConfidence /\ records d' = records d /\ profiles d' = profiles d) /\
  (forall e, py_lt c point_three = Err e ->
     resp = Resp 500 (BError (EExn e)) /\ records d' = records d) /\
  (forall cq, py_lt c point_three = Ok false -> decode_frame f = Ok tt -> py_float c = Ok cq ->
     detected <> JNull -> translated <> JNull ->
     exists rid rec,
       records d !! rid = None /\ records d' = <[rid := rec]> (records d) /\
       tr_confidence_score rec = cq /\ tr_session rec = sid /\
       (forall cs, scale_confidence c = Ok cs ->
          resp = Resp 200 (BSuccess rid detected translated cs descr)) /\
       (forall e, scale_confidence c = Err e -> resp = Resp 500 (BError (EExn e)))) /\
  (py_lt c point_three = Ok false ->
     (exists e, decode_frame f = Err e) \/ (exists e, py_float c = Err e) \/
     detected = JNull \/ translated = JNull ->
     exists e, resp = Resp 500 (BError (EExn e)) /\ records d' = records d).
Proof.
  intros Hf Hs Hsid U Hai Hc detected translated descr.
  destruct (analyze_frame_existing env now user f sid code s d Hf Hs Hsid U)
    as (d1 & Hr & Hp & ->).
  destruct (catch_500 (classify_and_record env now user sid f code) d1) as [resp d'] eqn:E.
  split; [|split; [|split]].
  - intros Hlt.
    rewrite (catch_500_eq _ _ _ _ (classify_low env now user sid f code kvs c Hai Hc d1 Hlt)) in E.
    injection E as <- <-. auto.
  - intros e He.
    rewrite (catch_500_eq _ _ _ _ (classify_gate_error env now user sid f code kvs c Hai Hc d1 e He)) in E.
    injection E as <- <-. auto.
  - intros cq Hge Hdec Hcq Hdn Htn.
    destruct (classify_high_ok env now user sid f code kvs c Hai Hc d1 cq Hge Hdec Hcq Hdn Htn)
      as (d2 & Hr2 & E2).
    rewrite (catch_500_eq _ _ _ _ E2) in E. injection E as Hresp <-.
    exists (fresh_pk (records d1)). eexists.
    split; [rewrite <- Hr; apply fresh_pk_free|].
    split; [rewrite Hr2, Hr; reflexivity|].
    split; [reflexivity|]. split; [reflexivity|].
    split; intros ? S; rewrite S in Hresp; auto.
  - intros Hge Hbad.
    destruct (classify_high_fail env now user sid f code kvs c Hai Hc d1 Hge Hbad) as [e E2].
    rewrite (catch_500_eq _ _ _ _ E2) in E. injection E as <- <-. eauto.
Qed.





Lemma demo_entry_view (r : jval) :
  In r demo_signs ->
  exists kvs c, r = JObj kvs /\ default (JInt 0) (assoc_last "confidence_score" kvs) = JFloat c /\
    SFleb (f64_of_ratio 85 100) c = true /\
    py_lt (JFloat c) point_three = Ok false /\
    (exists cs, scale_confidence (JFloat c) = Ok cs) /\
    default (JStr "") (assoc_last "detected_sign" kvs) <> JNull /\
    default (JStr "") (assoc_last "translated_text" kvs) <> JNull.
Proof.
  intros Hin. destruct (demo_signs_shape r Hin) as (sg & tx & c & ds & -> & Hc & Hlow & Hsc).
  eexists _, c. split; [reflexivity|]. split; [reflexivity|].
  split; [exact Hc|]. split; [exact Hlow|].
  split; [destruct (scale_confidence (JFloat c)); [eauto|discriminate]|].
  simpl. split; discriminate.
Qed.

(** C10 (as the code has it). Every [_demo_response] entry has a
    confidence of at least 0.85 (as Python compares the two floats). A
    frame submission against an existing session that the fallback path
    serves (the [try] block of the AI helper raised) therefore never gets
    [low_confidence]: when the frame decodes as base64 it is accepted with
    a persisted record, and when it does not the view fails with a 500
    error and persists no record. *)
Theorem fallback_frame_never_low_confidence (env : ai_env) (now : Z) (user : option Z)
    (f : string) (sid : Z) (code : string) (s : TranslationSession) (d : db) :
  (forall r, In r demo_signs -> exists kvs c, r = JObj kvs /\
      default (JInt 0) (assoc_last "confidence_score" kvs) = JFloat c /\
      SFleb (f64_of_ratio 85 100) c = true) /\
  (f <> "" -> sid <> 0%Z -> sessions d !! sid = Some s -> codes_unique d ->
   (exists e, ai_try env f code = Err e) ->
   let (resp, d') := analyze_frame env now user (frame_request_for f sid code) d in
   rbody resp <> BLowConfidence /\
   (decode_frame f = Ok tt ->
      status resp = 200%Z /\
      exists rid rec, records d !! rid = None /\ records d' = <[rid := rec]> (records d) /\
                      SFleb (f64_of_ratio 85 100) (tr_confidence_score rec) = true) /\
   ((exists e, decode_frame f = Err e) -> status resp = 500%Z /\ records d' = records d)).
Proof.
  split.
  { intros r Hin. destruct (demo_entry_view r Hin) as (kvs & c & ? & ? & ? & _). eauto. }
  intros Hf Hs Hsid U [e He].
  pose proof (analyze_sign_with_ai_fallback env f code e He) as Hai.
  destruct (demo_entry_view _ (demo_response_in (random_index env)))
    as (kvs & c & Hr & Hc & Hge & Hnl & [cs Hcs] & Hdn & Htn).
  rewrite Hr in Hai.
  pose proof (frame_outcome env now user f sid code s d kvs (JFloat c) Hf Hs Hsid U Hai Hc) as Hfr.
  simpl in Hfr.
  destruct (analyze_frame env now user (frame_request_for f sid code) d) as [resp d'].
  destruct Hfr as (_ & _ & Hok & Hbad).
  destruct (decode_frame f) as [[]|e'] eqn:Hdec.
  - destruct (Hok c Hnl eq_refl eq_refl Hdn Htn)
      as (rid & rec & Hfree & Hrec & Hconf & _ & Hsc & _).
    rewrite (Hsc cs Hcs).
    split; [discriminate|].
    split.
    + intros _. split; [reflexivity|]. exists rid, rec. rewrite Hconf. auto.
    + intros [e'' He'']. discriminate.
  - destruct (Hbad Hnl (or_introl (ex_intro _ e' eq_refl))) as (e'' & -> & Hrec).
    split; [discriminate|].
    split; [discriminate|]. auto.
Qed.

Lemma fallback_frame_never_low_confidence_witness :
  let (resp, d') := analyze_frame (env_down 2) 200 (Some 7%Z)
                      (frame_request_for good_frame 1 "ASL") (db0 5) in
  rbody resp <> BLowConfidence.
Proof.
  pose proof (proj2 (fallback_frame_never_low_confidence (env_down 2) 200 (Some 7%Z)
            good_frame 1 "ASL" (open_session (Some 7%Z) 100) (db0 5))) as H.
  destruct (analyze_frame (env_down 2) 200 (Some 7%Z) (frame_request_for good_frame 1 "ASL") (db0 5))
    as [resp d'].
  refine (proj1 (H _ _ _ _ _)).
  - discriminate.
  - discriminate.
  - reflexivity.
  - intros k1 k2 v1 v2 H1 H2 _.
    destruct (decide (k1 = 1%Z)) as [->|N1];
      [|simpl in H1; rewrite lookup_singleton_ne in H1 by congruence; discriminate].
    destruct (decide (k2 = 1%Z)) as [->|N2];
      [|simpl in H2; rewrite lookup_singleton_ne in H2 by congruence; discriminate].
    reflexivity.
  - exists UpstreamError. vm_compute. reflexivity.
Defined.

(** C10 as stated fails: with Gemini down the fallback serves "Yes" at
    0.95, but the frame "data:image/jpeg;base64,AAAAA" does not decode,
    so the submission is not accepted and no record is persisted. *)
Lemma fallback_frame_not_accepted :
  analyze_sign_with_ai (env_down 3) "data:image/jpeg;base64,AAAAA" "ASL"
    = Ok (demo_sign "Yes" "Yes." (f64_of_ratio 95 100) "Fist nodding motion") /\
  fst (analyze_frame (env_down 3) 200 (Some 7%Z)
         (frame_request_for "data:image/jpeg;base64,AAAAA" 1 "ASL") (db0 5))
    = Resp 500 (BError (EExn Base64Error)) /\
  records (snd (analyze_frame (env_down 3) 200 (Some 7%Z)
         (frame_request_for "data:image/jpeg;base64,AAAAA" 1 "ASL") (db0 5)))
    = records (db0 5).
Proof. split; [|split]; vm_compute; reflexivity. Qed.

Lemma insert_record_inv (r : TranslationRecord) (d : db) (k : Z) (d' : db) :
  insert_record r d = (Ok k, d') ->
  k = fresh_pk (records d) /\ records d' = <[k := r]> (records d).
Proof. unfold insert_record. intros H. injection H as <- <-. auto. Qed.

Ltac peel E x d0 H :=
  apply mbind_Ok in E as (x & d0 & H & E).

(** C9 (as the code has it). Whenever [analyze_frame] answers
    [status: 'success'], the record it names stores [float(v)] of the
    classification's confidence_score [v], and the answer carries
    [round(v * 100, 1)] of the value as the AI helper gave it: for a
    float [v], the binary64 product [v * 100] (which is not the exact
    product) rounded to one decimal, read back as a double; for an [int]
    [v], the [int] [v * 100]. A stored 0.92 is answered as 92.0. No other
    view answers a confidence. *)
Theorem success_confidence_scaled (env : ai_env) (now : Z) (user : option Z)
    (req : frame_request) (d : db) (resp : response) (d' : db) :
  scale_confidence (JFloat (f64_of_ratio 92 100)) = Ok (JFloat (f64_of_Z 92)) /\
  (analyze_frame env now user req d = (resp, d') ->
   forall rid ds tt cs descr, rbody resp = BSuccess rid ds tt cs descr ->
   exists rec kvs v,
     records d' !! rid = Some rec /\
     analyze_sign_with_ai env (default "" (req_frame req)) (default "ASL" (req_sign_language req))
       = Ok (JObj kvs) /\
     assoc_last "confidence_score" kvs = Some v /\
     py_float v = Ok (tr_confidence_score rec) /\
     scale_confidence v = Ok cs /\
     (forall x, v = JFloat x ->
        exists r, cs = JFloat r /\
          py_round1_float (f64_mul (tr_confidence_score rec) (f64_of_Z 100)) = Ok r) /\
     (forall z, v = JInt z -> cs = JInt (z * 100))).
Proof.
  split; [vm_compute; reflexivity|].
  intros H rid ds tt cs descr Hb.
  unfold analyze_frame, catch_500 in H.
  destruct (analyze_frame_body env now user req d) as [[r|e] d0] eqn:E;
    injection H as <- <-; [|discriminate].
  unfold analyze_frame_body in E.
  destruct (_ || _); [injection E as <- _; discriminate|].
  peel E s1 d1 H1. peel E u1 d2 H2.
  unfold classify_and_record in E.
  peel E ai d3 Hai. apply lift_Ok in Hai as [Hai ->].
  peel E cv d4 Hcv. apply lift_Ok in Hcv as [Hcv ->].
  peel E low d5 Hlow. apply lift_Ok in Hlow as [Hlow ->].
  destruct low; [injection E as <- _; discriminate|].
  peel E dt d6 Hdt. apply lift_Ok in Hdt as [Hdt ->].
  peel E tr d7 Htr. apply lift_Ok in Htr as [Htr ->].
  peel E conf d8 Hconf. apply lift_Ok in Hconf as [Hconf ->].
  peel E u2 d9 Hdec. apply lift_Ok in Hdec as [_ ->].
  peel E cq d10 Hcq. apply lift_Ok in Hcq as [Hcq ->].
  peel E u3 d11 Hn1. apply lift_Ok in Hn1 as [_ ->].
  peel E u4 d12 Hn2. apply lift_Ok in Hn2 as [_ ->].
  peel E k d13 Hins. apply insert_record_inv in Hins as [-> Hrec].
  peel E u5 d14 Hst.
  peel E cs' d15 Hcs. apply lift_Ok in Hcs as [Hcs ->].
  peel E de d16 Hde. apply lift_Ok in Hde as [_ ->].
  unfold ret in E. injection E as <- <-. simpl in Hb. injection Hb as <- _ _ <- _.
  destruct (update_user_stats_records user d13) as (d14' & Hst' & Hr14).
  rewrite Hst in Hst'. injection Hst' as _ Hd14. subst d14'.
  destruct ai as [| | | | |kv0|kvs]; simpl in Hcv; try discriminate.
  injection Hcv as <-. simpl in Hconf. injection Hconf as <-.
  destruct (assoc_last "confidence_score" kvs) as [v|] eqn:A;
    [|vm_compute in Hlow; discriminate].
  simpl in Hcs, Hcq.
  exists {| tr_session := s1.1; tr_frame_image := true; tr_detected_sign := dt;
            tr_translated_text := tr; tr_confidence_score := cq; tr_created_at := now |}, kvs, v.
  split; [rewrite Hr14, Hrec; apply lookup_insert_eq|].
  split; [exact Hai|]. split; [exact A|]. split; [exact Hcq|]. split; [exact Hcs|].
  split.
  - intros x ->. simpl in Hcq. injection Hcq as Hx. subst cq. cbn [tr_confidence_score].
    unfold scale_confidence in Hcs.
    destruct (py_round1_float (f64_mul x (f64_of_Z 100))) as [r|e] eqn:R; simpl in Hcs;
      [injection Hcs as <-; eauto | discriminate].
  - intros z ->. simpl in Hcs. injection Hcs as <-. reflexivity.
Qed.

Lemma success_confidence_scaled_witness :
  exists rec kvs v,
    records (snd run_092) !! 1%Z = Some rec /\
    analyze_sign_with_ai (env_answer (classification (f64_of_ratio 92 100))) good_frame "ASL"
      = Ok (JObj kvs) /\
    assoc_last "confidence_score" kvs = Some v /\
    py_float v = Ok (tr_confidence_score rec) /\
    scale_confidence v = Ok (JFloat (f64_of_Z 92)) /\
    (forall x, v = JFloat x ->
       exists r, JFloat (f64_of_Z 92) = JFloat r /\
         py_round1_float (f64_mul (tr_confidence_score rec) (f64_of_Z 100)) = Ok r) /\
    (forall z, v = JInt z -> JFloat (f64_of_Z 92) = JInt (z * 100)).
Proof.
  refine (proj2 (success_confidence_scaled (env_answer (classification (f64_of_ratio 92 100))) 200
            (Some 7%Z) (frame_request_for good_frame 1 "ASL") (db0 5)
            (fst run_092) (snd run_092)) _ 1%Z (JStr "Hello") (JStr "Hello!")
            (JFloat (f64_of_Z 92)) (JStr "wave") _).
  - unfold run_092. destruct (analyze_frame _ _ _ _ _). reflexivity.
  - vm_compute. reflexivity.
Defined.

(** The 0.6935 run of scenario 1. *)
Definition run_06935 : response * db :=
  analyze_frame (env_answer (classification (f64_of_ratio 6935 10000))) 200 (Some 7%Z)
    (frame_request_for good_frame 1 "ASL") (db0 5).

(** C9 as stated fails: the stored confidence is the double nearest
    0.6935, a little above 0.6935; times 100 and rounded to one decimal
    that is 69.4, but the view answers 69.3, since the binary64 product
    [0.6935 * 100] is just below 69.35. *)
Lemma success_confidence_not_exact_rounding :
  rbody (fst run_06935)
    = BSuccess 1 (JStr "Hello") (JStr "Hello!") (JFloat (f64_of_ratio 693 10)) (JStr "wave") /\
  option_map tr_confidence_score (records (snd run_06935) !! 1%Z)
    = Some (f64_of_ratio 6935 10000) /\
  Qlt_bool (6935 # 10000) (f64_to_Q (f64_of_ratio 6935 10000)) = true /\
  round_half_even (f64_to_Q (f64_of_ratio 6935 10000) * 100 * 10) = 694%Z /\
  f64_of_ratio 693 10 <> f64_of_ratio 694 10.
Proof.
  split; [vm_compute; reflexivity|]. split; [vm_compute; reflexivity|].
  split; [vm_compute; reflexivity|]. split; [vm_compute; reflexivity|].
  intros H. vm_compute in H. discriminate.
Qed.

(** C6 (the code falls short). [submit_feedback] passes the rating to
    [Feedback.objects.create], which does not check [RATING_CHOICES]: a
    rating of 7 on an existing record is stored and answered with the
    thank-you message, not rejected. A missing rating is stored as 3. *)
Theorem submit_feedback_stores_out_of_range_rating :
  ~ In 7%Z RATING_CHOICES /\
  submit_feedback 300 None (feedback_req 1 (Some (JInt 7))) db_with_record
    = (Resp 200 BThanks,
       set_feedbacks db_with_record
         {[ 1%Z := {| fb_record := 1; fb_user := None; fb_rating := 7;
                      fb_correct_translation := ""; fb_comment := "";
                      fb_submitted_at := 300 |} ]}) /\
  submit_feedback 300 None (feedback_req 1 None) db_with_record
    = (Resp 200 BThanks,
       set_feedbacks db_with_record
         {[ 1%Z := {| fb_record := 1; fb_user := None; fb_rating := 3;
                      fb_correct_translation := ""; fb_comment := "";
                      fb_submitted_at := 300 |} ]}).
Proof.
  split; [simpl; intuition discriminate|].
  split; vm_compute; reflexivity.
Qed.

(** One request alone, [Pending] then [ReadDone], is [update_user_stats]. *)
Lemma run_schedule_single (u : Z) (d : db) :
  snd (run_schedule u [0%nat; 0%nat] [Pending] d) = snd (update_user_stats (Some u) d).
Proof.
  simpl. unfold update_user_stats, mbind, get_or_create_profile.
  destruct (profiles d !! u); reflexivity.
Qed.

(** C3 (the code falls short). The stats update is a read in the view
    followed by a write of the value read plus one, not an atomic
    increment: two accepted submissions of user 7 (count 5) whose reads
    both happen before either write finish with a count of 6, not 7.
    Run one after the other they reach 7. *)
Theorem concurrent_stats_update_loses_increment :
  run_schedule 7 [0%nat; 1%nat; 0%nat; 1%nat] [Pending; Pending] (db0 5)
    = ([Finished; Finished], set_profiles (db0 5)
         {[ 7%Z := {| up_role := "hearing"; up_total_translations := 6 |} ]}) /\
  run_schedule 7 [0%nat; 0%nat; 1%nat; 1%nat] [Pending; Pending] (db0 5)
    = ([Finished; Finished], set_profiles (db0 5)
         {[ 7%Z := {| up_role := "hearing"; up_total_translations := 7 |} ]}).
Proof. split; vm_compute; reflexivity. Qed.

(* ------------------------------------------------------------------ *)
(** ** What the views write *)

Lemma preserves_bind (R : db -> db -> Prop) `{!Transitive R} {A B} (m : M A) (k : A -> M B) :
  preserves R m -> (forall a, preserves R (k a)) -> preserves R (mbind m k).
Proof.
  intros Hm Hk d. unfold mbind. specialize (Hm d).
  destruct (m d) as [[a|e] d0]; simpl in *; [|exact Hm].
  etransitivity; [exact Hm|apply Hk].
Qed.

Lemma preserves_ret (R : db -> db -> Prop) `{!Reflexive R} {A} (a : A) : preserves R (ret a).
Proof. intros d. simpl. reflexivity. Qed.

Lemma preserves_lift (R : db -> db -> Prop) `{!Reflexive R} {A} (r : result A) :
  preserves R (lift r).
Proof. intros d. simpl. reflexivity. Qed.

Lemma preserves_get_object_or_404 (R : db -> db -> Prop) `{!Reflexive R} {A}
    (tbl : db -> gmap Z A) (v : jval) : preserves R (get_object_or_404 tbl v).
Proof.
  intros d. unfold get_object_or_404.
  destruct (pk_prep v) as [[k|]|e]; [destruct (tbl d !! k)|..]; simpl; reflexivity.
Qed.

Lemma catch_500_snd (m : M response) (d : db) : snd (catch_500 m d) = snd (m d).
Proof. unfold catch_500. destruct (m d) as [[r|e] d']; reflexivity. Qed.

#[export] Instance frame_rel_preorder : PreOrder frame_rel.
Proof.
  split.
  - intros d. unfold frame_rel. auto.
  - intros d1 d2 d3 (A1 & B1 & C1) (A2 & B2 & C2). unfold frame_rel. split; [|split]; congruence.
Qed.

#[export] Instance same_records_preorder : PreOrder same_records.
Proof. unfold same_records. split; [intros d; reflexivity|intros d1 d2 d3 H1 H2; congruence]. Qed.

#[export] Instance same_sessions_preorder : PreOrder same_sessions.
Proof. unfold same_sessions. split; [intros d; reflexivity|intros d1 d2 d3 H1 H2; congruence]. Qed.

#[export] Instance profiles_outside_preorder (user : option Z) : PreOrder (profiles_outside user).
Proof.
  unfold profiles_outside. split; [intros d k _; reflexivity|].
  intros d1 d2 d3 H1 H2 k Hk. rewrite H2 by exact Hk. apply H1, Hk.
Qed.

Lemma preserves_same_one {A} (m : M A) :
  preserves same_records m -> preserves at_most_one_record m.
Proof. intros H d. left. apply H. Qed.

Lemma bind_one_first {A B} (m : M A) (k : A -> M B) :
  preserves at_most_one_record m -> (forall a, preserves same_records (k a)) ->
  preserves at_most_one_record (mbind m k).
Proof.
  intros Hm Hk d. unfold mbind. specialize (Hm d).
  destruct (m d) as [[a|e] d0]; simpl in *; [|exact Hm].
  unfold at_most_one_record. rewrite (Hk a d0). exact Hm.
Qed.

Lemma bind_one_rest {A B} (m : M A) (k : A -> M B) :
  preserves same_records m -> (forall a, preserves at_most_one_record (k a)) ->
  preserves at_most_one_record (mbind m k).
Proof.
  intros Hm Hk d. unfold mbind. specialize (Hm d).
  destruct (m d) as [[a|e] d0]; simpl in *; [|left; exact Hm].
  unfold at_most_one_record. unfold same_records in Hm. rewrite <- Hm. apply Hk.
Qed.

Lemma fmap_alter_same {A B} (f : A -> B) (g : A -> A) (i : Z) (m : gmap Z A) :
  (forall x, f (g x) = f x) -> f <$> alter g i m = f <$> m.
Proof.
  intros Hfg. apply map_eq. intros j. rewrite !lookup_fmap, lookup_alter.
  case_decide; subst; [|reflexivity].
  destruct (m !! j); simpl; [rewrite Hfg|]; reflexivity.
Qed.

(** The primitive writes. *)
Lemma set_session_variant_frame sid code : preserves frame_rel (set_session_variant sid code).
Proof.
  intros d. unfold set_session_variant.
  destruct (get_sign_language code d) as [[vid|]|e]; simpl; try reflexivity.
  split; [reflexivity|]. split; [reflexivity|].
  apply fmap_alter_same. reflexivity.
Qed.

Lemma set_session_variant_records sid code : preserves same_records (set_session_variant sid code).
Proof.
  intros d. unfold set_session_variant, same_records.
  destruct (get_sign_language code d) as [[vid|]|e]; reflexivity.
Qed.

Lemma set_session_variant_profiles user sid code :
  preserves (profiles_outside user) (set_session_variant sid code).
Proof.
  intros d k _. unfold set_session_variant.
  destruct (get_sign_language code d) as [[vid|]|e]; reflexivity.
Qed.

Lemma insert_record_frame r : preserves frame_rel (insert_record r).
Proof. intros d. repeat split. Qed.

Lemma insert_record_one r : preserves at_most_one_record (insert_record r).
Proof. intros d. right. exists (fresh_pk (records d)), r. split; [apply fresh_pk_free|reflexivity]. Qed.

Lemma insert_record_profiles user r : preserves (profiles_outside user) (insert_record r).
Proof. intros d k _. reflexivity. Qed.

Lemma insert_record_sessions r : preserves same_sessions (insert_record r).
Proof. intros d. unfold same_sessions. reflexivity. Qed.

Lemma update_user_stats_frame user : preserves frame_rel (update_user_stats user).
Proof.
  intros d. destruct user as [u|]; [|reflexivity].
  unfold update_user_stats, mbind, get_or_create_profile, update_total_translations.
  destruct (profiles d !! u); repeat split.
Qed.

Lemma update_user_stats_same_records user : preserves same_records (update_user_stats user).
Proof.
  intros d. destruct user as [u|]; [|reflexivity].
  unfold update_user_stats, mbind, get_or_create_profile, update_total_translations.
  destruct (profiles d !! u); repeat split.
Qed.

Lemma update_user_stats_sessions user : preserves same_sessions (update_user_stats user).
Proof.
  intros d. destruct user as [u|]; [|reflexivity].
  unfold update_user_stats, mbind, get_or_create_profile, update_total_translations.
  destruct (profiles d !! u); repeat split.
Qed.

Lemma update_user_stats_profiles user : preserves (profiles_outside user) (update_user_stats user).
Proof.
  intros d k Hk. destruct user as [u|]; [|reflexivity].
  assert (Hku : u <> k) by congruence.
  unfold update_user_stats, mbind, get_or_create_profile, update_total_translations.
  destruct (profiles d !! u); simpl; rewrite lookup_alter_ne by exact Hku;
    [reflexivity|]. rewrite lookup_insert_ne by exact Hku. reflexivity.
Qed.

Create HintDb view_writes.
#[export] Hint Resolve set_session_variant_frame set_session_variant_records
  set_session_variant_profiles insert_record_frame insert_record_profiles
  insert_record_sessions update_user_stats_frame update_user_stats_same_records
  update_user_stats_sessions update_user_stats_profiles : view_writes.

Ltac pres_step :=
  match goal with
  | |- preserves _ (mbind _ _) =>
      apply preserves_bind; [..|intros ?]; try typeclasses eauto
  | |- preserves _ (ret _) => apply preserves_ret; typeclasses eauto
  | |- preserves _ (lift _) => apply preserves_lift; typeclasses eauto
  | |- preserves _ (get_object_or_404 _ _) =>
      apply preserves_get_object_or_404; typeclasses eauto
  | |- preserves _ (if ?b then _ else _) => destruct b
  end.

Ltac pres := repeat (first [solve [eauto with view_writes] | pres_step]).

Lemma classify_and_record_frame env now user sid f code :
  preserves frame_rel (classify_and_record env now user sid f code).
Proof. unfold classify_and_record. pres. Qed.

Lemma classify_and_record_sessions env now user sid f code :
  preserves same_sessions (classify_and_record env now user sid f code).
Proof. unfold classify_and_record. pres. Qed.

Lemma classify_and_record_profiles env now user sid f code :
  preserves (profiles_outside user) (classify_and_record env now user sid f code).
Proof. unfold classify_and_record. pres. Qed.

Lemma analyze_frame_body_frame env now user req :
  preserves frame_rel (analyze_frame_body env now user req).
Proof. unfold analyze_frame_body. pres; apply classify_and_record_frame. Qed.

Lemma analyze_frame_body_profiles env now user req :
  preserves (profiles_outside user) (analyze_frame_body env now user req).
Proof. unfold analyze_frame_body. pres; apply classify_and_record_profiles. Qed.

Ltac one_step :=
  match goal with
  | |- preserves at_most_one_record (mbind (insert_record _) _) =>
      apply bind_one_first; [apply insert_record_one|intros ?; pres]
  | |- preserves at_most_one_record (mbind _ _) => apply bind_one_rest; [pres|intros ?]
  | |- preserves at_most_one_record (if ?b then _ else _) => destruct b
  | |- preserves at_most_one_record _ => apply preserves_same_one; pres
  end.

Lemma analyze_frame_body_one env now user req :
  preserves at_most_one_record (analyze_frame_body env now user req).
Proof.
  unfold analyze_frame_body, classify_and_record.
  repeat one_step; apply set_session_variant_records.
Qed.

Lemma frame_rel_session_invariant (d d' : db) :
  frame_rel d d' -> session_invariant d -> session_invariant d'.
Proof.
  intros (_ & _ & C) I k s' H.
  assert (Hk : (sess_core <$> sessions d) !! k = Some (sess_core s'))
    by (rewrite <- C, lookup_fmap, H; reflexivity).
  rewrite lookup_fmap in Hk.
  destruct (sessions d !! k) as [s|] eqn:Hs; simpl in Hk; [|discriminate].
  assert (E : sess_core s = sess_core s') by congruence.
  unfold sess_core in E. injection E as _ _ He Hst _.
  rewrite <- He, <- Hst. exact (I k s Hs).
Qed.

Lemma get_sign_language_In (code : string) (d : db) (kv : Z * SignLanguageType) :
  In kv (List.filter (fun kv => String.eqb (sl_code kv.2) code) (map_to_list (sign_languages d)))
  <-> sign_languages d !! kv.1 = Some kv.2 /\ sl_code kv.2 = code.
Proof.
  destruct kv as [k v]. rewrite filter_In, <- list_elem_of_In, elem_of_map_to_list.
  simpl. rewrite String.eqb_eq. tauto.
Qed.

Lemma get_sign_language_found (code : string) (d : db) (vid : Z) (v : SignLanguageType) :
  codes_unique d -> sign_languages d !! vid = Some v -> sl_code v = code ->
  get_sign_language code d = Ok (Some vid).
Proof.
  intros U Hv Hc. destruct (get_sign_language_total code d U) as [o Ho].
  assert (I : In (vid, v) (List.filter (fun kv => String.eqb (sl_code kv.2) code)
                             (map_to_list (sign_languages d))))
    by (apply get_sign_language_In; auto).
  unfold get_sign_language in Ho |- *.
  destruct (List.filter _ _) as [|[k w] [|x rest]]; try discriminate Ho.
  - destruct I.
  - destruct I as [I|[]]. injection I as -> ->. reflexivity.
Qed.

Lemma get_sign_language_sound (code : string) (d : db) (o : option Z) :
  get_sign_language code d = Ok o ->
  match o with
  | Some k => exists v, sign_languages d !! k = Some v /\ sl_code v = code
  | None => forall k v, sign_languages d !! k = Some v -> sl_code v <> code
  end.
Proof.
  unfold get_sign_language. intros H.
  destruct (List.filter _ _) as [|[k w] [|x rest]] eqn:F; try discriminate H;
    injection H as <-.
  - intros k v Hk Hc.
    assert (I : In (k, v) (List.filter (fun kv => String.eqb (sl_code kv.2) code)
                             (map_to_list (sign_languages d))))
      by (apply get_sign_language_In; auto).
    rewrite F in I. destruct I.
  - exists w. apply (get_sign_language_In code d (k, w)). rewrite F. left. reflexivity.
Qed.

(** X1. [analyze_frame], whatever the request and whatever the AI helper
    answers or raises, never writes a sign language or a feedback row and
    never creates, deletes or changes a session except for its
    [sign_language]: user, start, end, status and device stay as they were. *)
Theorem analyze_frame_leaves_session_lifecycle (env : ai_env) (now : Z) (user : option Z)
    (req : frame_request) (d : db) :
  let d' := snd (analyze_frame env now user req d) in
  sign_languages d' = sign_languages d /\ feedbacks d' = feedbacks d /\
  forall k, sess_core <$> sessions d' !! k = sess_core <$> sessions d !! k.
Proof.
  simpl. unfold analyze_frame. rewrite catch_500_snd.
  destruct (analyze_frame_body_frame env now user req d) as (A & B & C).
  split; [exact A|]. split; [exact B|].
  intros k. rewrite <- !lookup_fmap, C. reflexivity.
Qed.

(** X2. One [analyze_frame] call adds at most one translation record,
    under a primary key not in use before, and never changes or deletes
    an existing record, whatever its outcome. *)
Theorem analyze_frame_at_most_one_record (env : ai_env) (now : Z) (user : option Z)
    (req : frame_request) (d : db) :
  let d' := snd (analyze_frame env now user req d) in
  records d' = records d \/
  exists k r, records d !! k = None /\ records d' = <[k := r]> (records d).
Proof.
  simpl. unfold analyze_frame. rewrite catch_500_snd.
  apply analyze_frame_body_one.
Qed.

(** X3. [analyze_frame] changes no user profile other than the
    requesting user's own; an anonymous request changes no profile. *)
Theorem analyze_frame_profiles_of_requester (env : ai_env) (now : Z) (user : option Z)
    (req : frame_request) (d : db) :
  let d' := snd (analyze_frame env now user req d) in
  (forall k, Some k <> user -> profiles d' !! k = profiles d !! k) /\
  (user = None -> profiles d' = profiles d).
Proof.
  simpl. unfold analyze_frame. rewrite catch_500_snd.
  pose proof (analyze_frame_body_profiles env now user req d) as P.
  split; [exact P|]. intros ->. apply map_eq. intros k. apply P. discriminate.
Qed.

Lemma get_object_or_404_state {A} (tbl : db -> gmap Z A) (v : jval) (d : db) (x : Z * A) (d1 : db) :
  get_object_or_404 tbl v d = (Ok x, d1) -> d1 = d.
Proof.
  intros H. pose proof (preserves_get_object_or_404 eq tbl v d) as G.
  rewrite H in G. simpl in G. symmetry. exact G.
Qed.

(** The counter the stats update leaves for user [u], the requests
    running one after the other. *)
Lemma update_user_stats_counter (u : Z) (d d' : db) :
  update_user_stats (Some u) d = (Ok tt, d') ->
  profiles d' !! u = Some (match profiles d !! u with
    | Some p => {| up_role := up_role p; up_total_translations := up_total_translations p + 1 |}
    | None => {| up_role := "hearing"; up_total_translations := 1 |}
    end).
Proof.
  unfold update_user_stats, mbind, get_or_create_profile, update_total_translations.
  destruct (profiles d !! u) as [p|] eqn:Hp; simpl; intros H; injection H as <-; simpl.
  - erewrite alter_lookup_Some by exact Hp. apply lookup_insert_eq.
  - rewrite lookup_alter, lookup_insert_eq. case_decide; [reflexivity|congruence].
Qed.

(** X4. When [analyze_frame] answers [status: 'success'] to a signed-in
    user [u], requests running one after the other, the user's
    [total_translations] is one more than before; a user without a
    profile gets one created with role 'hearing' and a count of 1. *)
Theorem analyze_frame_success_counts_once (env : ai_env) (now : Z) (u : Z)
    (req : frame_request) (d : db) (resp : response) (d' : db)
    (rid : Z) (ds tt : jval) (cs : jval) (descr : jval) :
  analyze_frame env now (Some u) req d = (resp, d') ->
  rbody resp = BSuccess rid ds tt cs descr ->
  profiles d' !! u = Some (match profiles d !! u with
    | Some p => {| up_role := up_role p; up_total_translations := up_total_translations p + 1 |}
    | None => {| up_role := "hearing"; up_total_translations := 1 |}
    end).
Proof.
  intros H Hb.
  unfold analyze_frame, catch_500 in H.
  destruct (analyze_frame_body env now (Some u) req d) as [[r|e] d0] eqn:E;
    injection H as <- <-; [|discriminate].
  unfold analyze_frame_body in E.
  destruct (_ || _); [injection E as <- _; discriminate|].
  peel E s1 d1 H1. apply get_object_or_404_state in H1. subst d1.
  peel E u1 d2 H2.
  pose proof (set_session_variant_profiles None s1.1 (default "ASL" (req_sign_language req)) d)
    as P. rewrite H2 in P. simpl in P.
  unfold classify_and_record in E.
  peel E ai d3 Hai. apply lift_Ok in Hai as [_ ->].
  peel E cv d4 Hcv. apply lift_Ok in Hcv as [_ ->].
  peel E low d5 Hlow. apply lift_Ok in Hlow as [_ ->].
  destruct low; [injection E as <- _; discriminate|].
  peel E dt d6 Hdt. apply lift_Ok in Hdt as [_ ->].
  peel E tr d7 Htr. apply lift_Ok in Htr as [_ ->].
  peel E conf d8 Hconf. apply lift_Ok in Hconf as [_ ->].
  peel E u2 d9 Hdec. apply lift_Ok in Hdec as [_ ->].
  peel E cq d10 Hcq. apply lift_Ok in Hcq as [_ ->].
  peel E u3 d11 Hn1. apply lift_Ok in Hn1 as [_ ->].
  peel E u4 d12 Hn2. apply lift_Ok in Hn2 as [_ ->].
  peel E k d13 Hins. unfold insert_record in Hins. injection Hins as _ <-.
  peel E u5 d14 Hst. destruct u5.
  peel E cs' d15 Hcs. apply lift_Ok in Hcs as [_ ->].
  peel E de d16 Hde. apply lift_Ok in Hde as [_ ->].
  unfold ret in E. injection E as _ <-.
  apply update_user_stats_counter in Hst. rewrite Hst. simpl.
  rewrite (P u) by discriminate. reflexivity.
Qed.

(** X5. A frame posted to an existing session with a language code that a
    [SignLanguageType] carries attaches that language to the session
    before the AI runs: whatever the classification and the outcome (low
    confidence, success, or a 500 error), the session afterwards points
    to that language, and no other session changes. *)
Theorem analyze_frame_attaches_language (env : ai_env) (now : Z) (user : option Z)
    (f : string) (sid : Z) (code : string) (s : TranslationSession) (d : db)
    (vid : Z) (v : SignLanguageType) :
  f <> "" -> sid <> 0%Z -> sessions d !! sid = Some s -> codes_unique d ->
  sign_languages d !! vid = Some v -> sl_code v = code ->
  sessions (snd (analyze_frame env now user (frame_request_for f sid code) d))
    = <[sid := {| ts_user := ts_user s; ts_sign_language := Some vid;
                  ts_started_at := ts_started_at s; ts_ended_at := ts_ended_at s;
                  ts_status := ts_status s; ts_device_info := ts_device_info s |}]>
        (sessions d).
Proof.
  intros Hf Hs Hsid U Hv Hc.
  unfold analyze_frame. rewrite catch_500_snd.
  unfold analyze_frame_body, frame_request_for.
  cbn [default from_option id req_frame req_session_id req_sign_language].
  rewrite frame_guard_passes by assumption.
  unfold mbind at 1. rewrite get_object_or_404_int, Hsid. simpl.
  unfold mbind at 1, set_session_variant.
  rewrite (get_sign_language_found code d vid v U Hv Hc).
  match goal with
  | |- sessions (snd (classify_and_record ?e ?n ?us ?i ?fr ?co ?dd)) = _ =>
      rewrite (classify_and_record_sessions e n us i fr co dd)
  end.
  simpl. erewrite alter_lookup_Some by exact Hsid. reflexivity.
Qed.

Lemma db0_codes_unique (n : Z) : codes_unique (db0 n).
Proof.
  intros k1 k2 v1 v2 H1 H2 _. simpl in H1, H2.
  apply lookup_singleton_Some in H1 as [<- _], H2 as [<- _]. reflexivity.
Qed.

Lemma analyze_frame_profiles_of_requester_witness :
  profiles (snd (analyze_frame (env_answer (classification (f64_of_ratio 92 100))) 200 None
                   (frame_request_for good_frame 1 "ASL") (db0 5))) = profiles (db0 5).
Proof.
  apply (proj2 (analyze_frame_profiles_of_requester (env_answer (classification (f64_of_ratio 92 100)))
                  200 None (frame_request_for good_frame 1 "ASL") (db0 5))).
  reflexivity.
Defined.

Lemma analyze_frame_success_counts_once_witness :
  rbody (fst run_092)
    = BSuccess 1 (JStr "Hello") (JStr "Hello!") (JFloat (f64_of_Z 92)) (JStr "wave") /\
  profiles (snd run_092) !! 7%Z = Some {| up_role := "hearing"; up_total_translations := 6 |}.
Proof.
  assert (Hb : rbody (fst run_092)
    = BSuccess 1 (JStr "Hello") (JStr "Hello!") (JFloat (f64_of_Z 92)) (JStr "wave"))
    by (vm_compute; reflexivity).
  split; [exact Hb|].
  rewrite (analyze_frame_success_counts_once (env_answer (classification (f64_of_ratio 92 100))) 200 7
             (frame_request_for good_frame 1 "ASL") (db0 5) (fst run_092) (snd run_092)
             1 (JStr "Hello") (JStr "Hello!") (JFloat (f64_of_Z 92)) (JStr "wave"));
    [reflexivity| |exact Hb].
  unfold run_092. destruct (analyze_frame _ _ _ _ _). reflexivity.
Defined.

Lemma analyze_frame_attaches_language_witness :
  sessions (snd (analyze_frame (env_down 0) 200 None (frame_request_for good_frame 1 "ASL") (db0 5)))
    = {[ 1%Z := {| ts_user := Some 7%Z; ts_sign_language := Some 1%Z; ts_started_at := 100;
                   ts_ended_at := None; ts_status := Active; ts_device_info := "" |} ]}.
Proof.
  rewrite (analyze_frame_attaches_language (env_down 0) 200 None good_frame 1 "ASL"
             (open_session (Some 7%Z) 100) (db0 5) 1 asl).
  - simpl. rewrite insert_singleton. reflexivity.
  - discriminate.
  - discriminate.
  - reflexivity.
  - apply db0_codes_unique.
  - reflexivity.
  - reflexivity.
Defined.

Lemma end_session_cases (now : Z) (req : end_request) (d : db) :
  (exists e, end_session now req d = (Resp 500 (BError (EExn e)), d)) \/
  (exists sid s, sessions d !! sid = Some s /\
     end_session now req d = (Resp 200 BOk, set_sessions d (<[sid := closed s now]> (sessions d)))).
Proof.
  unfold end_session, catch_500, end_session_body, mbind.
  destruct (get_object_or_404 sessions (default JNull (end_req_session_id req)) d)
    as [[[sid s]|e] d1] eqn:G.
  - pose proof (get_object_or_404_state _ _ _ _ _ G) as ->.
    unfold get_object_or_404 in G.
    destruct (pk_prep _) as [[k|]|e]; try discriminate G.
    destruct (sessions d !! k) as [s'|] eqn:Hk; [|discriminate G].
    injection G as <- <-. right. exists k, s'. split; [exact Hk|].
    unfold complete_session. simpl. erewrite alter_lookup_Some by exact Hk. reflexivity.
  - left. exists e. pose proof (preserves_get_object_or_404 eq sessions
      (default JNull (end_req_session_id req)) d) as P.
    rewrite G in P. simpl in P. subst d1. reflexivity.
Qed.

(** X6. Every [end_session] request has one of two outcomes: it fails
    with a 500 error and writes nothing, or it answers [{'status': 'ok'}]
    after closing exactly one existing session, every other row and
    table staying as it was. *)
Theorem end_session_outcomes (now : Z) (req : end_request) (d : db) :
  (exists e, end_session now req d = (Resp 500 (BError (EExn e)), d)) \/
  (exists sid s, sessions d !! sid = Some s /\
     end_session now req d = (Resp 200 BOk, set_sessions d (<[sid := closed s now]> (sessions d)))).
Proof. apply end_session_cases. Qed.


(** X7. Every [submit_feedback] request has one of two outcomes: it fails
    with a 500 error and writes nothing, or the record exists, the rating
    (3 when absent) passes [int()], and it answers with the thank-you
    message after adding exactly one feedback row, under an unused
    primary key, that points to that record and carries the requesting
    user, the converted rating and the time; nothing else changes. *)
Theorem submit_feedback_outcomes (now : Z) (user : option Z) (req : feedback_request) (d : db) :
  (exists e, submit_feedback now user req d = (Resp 500 (BError (EExn e)), d)) \/
  (exists rid rec rating,
     records d !! rid = Some rec /\
     int_field_prep (default (JInt 3) (fr_rating req)) = Ok rating /\
     feedbacks d !! fresh_pk (feedbacks d) = None /\
     submit_feedback now user req d
       = (Resp 200 BThanks,
          set_feedbacks d (<[fresh_pk (feedbacks d) :=
            {| fb_record := rid; fb_user := user; fb_rating := rating;
               fb_correct_translation := default "" (fr_correct_translation req);
               fb_comment := default "" (fr_comment req); fb_submitted_at := now |}]>
            (feedbacks d)))).
Proof.
  unfold submit_feedback, catch_500, submit_feedback_body, mbind.
  destruct (get_object_or_404 records (default JNull (fr_record_id req)) d)
    as [[[rid rec]|e] d1] eqn:G.
  - pose proof (get_object_or_404_state _ _ _ _ _ G) as ->.
    unfold get_object_or_404 in G.
    destruct (pk_prep _) as [[k|]|e]; try discriminate G.
    destruct (records d !! k) as [r'|] eqn:Hk; [|discriminate G].
    injection G as <- <-. unfold lift.
    destruct (int_field_prep (default (JInt 3) (fr_rating req))) as [rating|e] eqn:Hr.
    + right. exists k, r', rating. split; [exact Hk|]. split; [reflexivity|].
      split; [apply fresh_pk_free|reflexivity].
    + left. exists e. reflexivity.
  - left. exists e. pose proof (preserves_get_object_or_404 eq records
      (default JNull (fr_record_id req)) d) as P.
    rewrite G in P. simpl in P. subst d1. reflexivity.
Qed.

Lemma substring_0_length (n : nat) (t : string) : String.length (String.substring 0 n t) <= n.
Proof.
  revert t. induction n as [|n IH]; intros [|c t]; simpl; try lia.
  specialize (IH t). lia.
Qed.

Lemma substring_0_prefix (n : nat) (t : string) : String.prefix (String.substring 0 n t) t = true.
Proof.
  revert t. induction n as [|n IH]; intros [|c t]; simpl; try reflexivity.
  destruct (ascii_dec c c) as [_|N]; [apply IH|contradiction].
Qed.

Lemma substring_0_all (n : nat) (t : string) :
  String.length t <= n -> String.substring 0 n t = t.
Proof.
  revert t. induction n as [|n IH]; intros [|c t]; simpl; intros H; try reflexivity; try lia.
  rewrite IH by lia. reflexivity.
Qed.

(** X8. [translator_view] creates one new session under a primary key not
    in use, with status 'active', no language, no end time, the user when
    signed in (else none), and the first 255 characters of the User-Agent
    header ('' when absent) as device info; it changes no other row, and
    the page lists exactly the active sign languages, each once. *)
Theorem translator_view_creates_active_session (now : Z) (user : option Z)
    (ua : option string) (d : db) :
  let k := fresh_pk (sessions d) in
  let s := {| ts_user := user; ts_sign_language := None; ts_started_at := now;
              ts_ended_at := None; ts_status := Active;
              ts_device_info := String.substring 0 255 (default "" ua) |} in
  sessions d !! k = None /\
  snd (translator_view now user ua d) = set_sessions d (<[k := s]> (sessions d)) /\
  String.length (ts_device_info s) <= 255 /\
  String.prefix (ts_device_info s) (default "" ua) = true /\
  (String.length (default "" ua) <= 255 -> ts_device_info s = default "" ua) /\
  exists langs, fst (translator_view now user ua d) = Ok (k, langs) /\ NoDup langs /\
    forall j, j ∈ langs <-> exists v, sign_languages d !! j = Some v /\ sl_is_active v = true.
Proof.
  intros k s0. split; [apply fresh_pk_free|]. split; [reflexivity|].
  split; [apply substring_0_length|].
  split; [apply substring_0_prefix|].
  split; [apply substring_0_all|].
  exists (active_sign_languages d). split; [reflexivity|]. split.
  - unfold active_sign_languages. apply NoDup_fmap_fst.
    + intros x y1 y2 H1 H2. apply list_elem_of_filter in H1 as [_ H1], H2 as [_ H2].
      apply elem_of_map_to_list in H1, H2. congruence.
    + apply NoDup_filter, NoDup_map_to_list.
  - intros j. unfold active_sign_languages. rewrite list_elem_of_fmap. split.
    + intros [[j' v] [-> Hin]]. apply list_elem_of_filter in Hin as [Ha Hin].
      apply elem_of_map_to_list in Hin. exists v. auto.
    + intros [v [Hv Ha]]. exists (j, v). split; [reflexivity|].
      apply list_elem_of_filter. split; [exact Ha|]. apply elem_of_map_to_list, Hv.
Qed.

Lemma submit_feedback_sessions (now : Z) (user : option Z) (req : feedback_request) (d : db) :
  sessions (snd (submit_feedback now user req d)) = sessions d.
Proof.
  unfold submit_feedback. rewrite catch_500_snd. revert d.
  change (preserves same_sessions (submit_feedback_body now user req)).
  unfold submit_feedback_body. pres. intros d. reflexivity.
Qed.

Lemma translator_view_creates_active_session_witness :
  ts_device_info {| ts_user := None; ts_sign_language := None; ts_started_at := 300;
                    ts_ended_at := None; ts_status := Active;
                    ts_device_info := String.substring 0 255 (default "" (Some "Mozilla/5.0")) |}
    = "Mozilla/5.0".
Proof.
  apply (proj1 (proj2 (proj2 (proj2 (proj2
           (translator_view_creates_active_session 300 None (Some "Mozilla/5.0") (db0 5))))))).
  simpl. lia.
Defined.

(** X9. The views keep the session lifecycle consistent: if in every
    stored session [ended_at] is empty exactly when the status is
    'active', this still holds after any [translator_view],
    [analyze_frame], [end_session] or [submit_feedback] request,
    whatever it answers. *)
Theorem views_keep_session_lifecycle (d : db) :
  session_invariant d ->
  (forall now user ua, session_invariant (snd (translator_view now user ua d))) /\
  (forall env now user req, session_invariant (snd (analyze_frame env now user req d))) /\
  (forall now req, session_invariant (snd (end_session now req d))) /\
  (forall now user req, session_invariant (snd (submit_feedback now user req d))).
Proof.
  intros I. split; [|split; [|split]].
  - intros now user ua k s. simpl. rewrite lookup_insert.
    case_decide; [intros Hl; injection Hl as <-; simpl; tauto|apply I].
  - intros env now user req. eapply frame_rel_session_invariant; [|exact I].
    unfold analyze_frame. rewrite catch_500_snd. apply analyze_frame_body_frame.
  - intros now req. destruct (end_session_cases now req d) as [[e ->]|(sid & s & Hs & ->)];
      [exact I|].
    intros k s'. simpl. rewrite lookup_insert.
    case_decide; [intros Hl; injection Hl as <-; simpl; split; discriminate|apply I].
  - intros now user req k s. rewrite submit_feedback_sessions. apply I.
Qed.

Lemma views_keep_session_lifecycle_witness :
  session_invariant (snd (end_session 300 {| end_req_session_id := Some (JInt 1) |} (db0 5))).
Proof.
  refine (proj1 (proj2 (proj2 (views_keep_session_lifecycle (db0 5) _))) 300%Z _).
  intros k s H. simpl in H. apply lookup_singleton_Some in H as [_ <-]. simpl. tauto.
Defined.

#[export] Instance newer_or_same_trans : Transitive newer_or_same.
Proof. intros a b c. unfold newer_or_same. lia. Qed.

#[export] Instance newer_or_same_total : Total newer_or_same.
Proof. intros a b. unfold newer_or_same. lia. Qed.

(** X10. [history] redirects an anonymous visitor (no list). For a
    signed-in user it lists at most 20 sessions, each a stored session of
    that user, each once, newest first by [started_at]; a session of the
    user left out means the list is full (20) and every listed session
    started no earlier than it. *)
Theorem history_recent_own_sessions (d : db) :
  history None d = None /\
  forall u, exists l, history (Some u) d = Some l /\
    length l <= 20 /\ NoDup l.*1 /\
    (forall k s, (k, s) ∈ l -> sessions d !! k = Some s /\ ts_user s = Some u) /\
    StronglySorted newer_or_same l /\
    (forall k s, sessions d !! k = Some s -> ts_user s = Some u -> (k, s) ∉ l ->
       length l = 20 /\ forall x, x ∈ l -> (ts_started_at s <= ts_started_at x.2)%Z).
Proof.
  split; [reflexivity|]. intros u.
  set (L0 := filter (fun kv : Z * TranslationSession => ts_user kv.2 = Some u)
               (map_to_list (sessions d))).
  set (L := merge_sort newer_or_same L0).
  assert (HP : L ≡ₚ L0) by apply merge_sort_Permutation.
  assert (HS : StronglySorted newer_or_same L)
    by (apply StronglySorted_merge_sort; typeclasses eauto).
  assert (HD : (take 20 L ++ drop 20 L)%list = L) by apply take_drop.
  assert (Hin : forall x, x ∈ L <-> x ∈ L0) by (intros x; rewrite HP; reflexivity).
  assert (HL0 : forall k s, (k, s) ∈ L0 <-> sessions d !! k = Some s /\ ts_user s = Some u).
  { intros k s. unfold L0. rewrite list_elem_of_filter, elem_of_map_to_list. simpl. tauto. }
  exists (take 20 L). split; [reflexivity|]. split.
  { rewrite length_take. lia. }
  split.
  { apply NoDup_fmap_fst.
    - intros x y1 y2 H1 H2.
      apply (fun H => elem_of_sublist _ _ _ H (sublist_take L 20)), Hin, HL0 in H1, H2.
      destruct H1 as [H1 _], H2 as [H2 _]. congruence.
    - apply (sublist_NoDup _ L); [|apply sublist_take]. rewrite HP.
      apply NoDup_filter, NoDup_map_to_list. }
  split.
  { intros k s H. apply HL0, Hin. exact (elem_of_sublist _ _ _ H (sublist_take L 20)). }
  split.
  { apply (StronglySorted_app_1_l _ _ (drop 20 L)). rewrite HD. exact HS. }
  intros k s Hk Hu Hnot.
  assert (Hdrop : (k, s) ∈ drop 20 L).
  { assert (HkL : (k, s) ∈ L) by (apply Hin, HL0; auto).
    rewrite <- HD in HkL. apply elem_of_app in HkL as [?|?]; [contradiction|assumption]. }
  split.
  - apply length_take_le. destruct (decide (20 <= length L)) as [?|Hlt]; [assumption|].
    rewrite drop_ge in Hdrop by lia. destruct (not_elem_of_nil _ Hdrop).
  - intros x Hx. rewrite <- HD in HS.
    exact (StronglySorted_app_1_elem_of _ _ _ _ _ HS Hx Hdrop).
Qed.

Lemma get_or_create_language_present (lang : string * string) (d : db) (k : Z) (v : SignLanguageType) :
  codes_unique d -> sign_languages d !! k = Some v -> sl_code v = lang.2 ->
  get_or_create_language lang d = (Ok (false, sl_name v, sl_code v), d).
Proof.
  intros U Hv Hc. destruct (get_sign_language_total lang.2 d U) as [o Ho].
  assert (I : In (k, v) (List.filter (fun kv => String.eqb (sl_code kv.2) lang.2)
                           (map_to_list (sign_languages d))))
    by (apply get_sign_language_In; auto).
  unfold get_sign_language in Ho. unfold get_or_create_language.
  destruct (List.filter _ _) as [|[k' w] [|x rest]]; try discriminate Ho.
  - destruct I.
  - destruct I as [I|[]]. injection I as -> ->. reflexivity.
Qed.

Lemma get_or_create_language_absent (lang : string * string) (d : db) :
  code_absent lang.2 d ->
  get_or_create_language lang d
    = (Ok (true, lang.1, lang.2),
       set_sign_languages d (<[fresh_pk (sign_languages d) :=
         {| sl_name := lang.1; sl_code := lang.2; sl_is_active := true |}]> (sign_languages d))).
Proof.
  intros A. unfold get_or_create_language. rewrite filter_all_false; [reflexivity|].
  intros [k v] Hin. apply list_elem_of_In, elem_of_map_to_list in Hin.
  simpl. apply String.eqb_neq. exact (A k v Hin).
Qed.

Lemma code_absent_or_present (code : string) (d : db) :
  code_absent code d \/ exists k v, sign_languages d !! k = Some v /\ sl_code v = code.
Proof.
  destruct (decide (code_absent code d)) as [A|A]; [left; exact A|right].
  unfold code_absent in A. apply map_not_Forall in A; [|intros; apply _].
  destruct A as (k & v & Hv & Hn).
  exists k, v. split; [exact Hv|]. destruct (decide (sl_code v = code)); tauto.
Qed.

Lemma codes_unique_insert (d : db) (k : Z) (v : SignLanguageType) :
  codes_unique d -> code_absent (sl_code v) d -> sign_languages d !! k = None ->
  codes_unique (set_sign_languages d (<[k := v]> (sign_languages d))).
Proof.
  intros U A Hk k1 k2 v1 v2. simpl. rewrite !lookup_insert.
  case_decide as E1; case_decide as E2; intros H1 H2 Hc; subst; try reflexivity.
  - injection H1 as <-. exfalso. exact (A k2 v2 H2 (eq_sym Hc)).
  - injection H2 as <-. exfalso. exact (A k1 v1 H1 Hc).
  - exact (U k1 k2 v1 v2 H1 H2 Hc).
Qed.

Lemma seed_all_spec (langs : list (string * string)) (d : db) :
  codes_unique d -> NoDup langs.*2 ->
  exists out d', seed_all langs d = (Ok out, d') /\
    codes_unique d' /\
    d' = set_sign_languages d (sign_languages d') /\
    (forall k v, sign_languages d !! k = Some v -> sign_languages d' !! k = Some v) /\
    (forall k v, sign_languages d' !! k = Some v ->
       sign_languages d !! k = Some v \/
       (sign_languages d !! k = None /\ (sl_name v, sl_code v) ∈ langs /\ sl_is_active v = true)) /\
    (forall c, c ∈ langs.*2 -> exists k v, sign_languages d' !! k = Some v /\ sl_code v = c) /\
    out.*1.*1 = (fun l => bool_decide (code_absent l.2 d)) <$> langs.
Proof.
  revert d. induction langs as [|[n c] rest IH]; intros d U ND.
  { exists [], d. split; [reflexivity|]. split; [exact U|]. split; [destruct d; reflexivity|].
    split; [auto|]. split; [auto|]. split; [|reflexivity].
    intros c Hc. destruct (not_elem_of_nil _ Hc). }
  simpl in ND. apply NoDup_cons in ND as [Hc ND].
  destruct (code_absent_or_present c d) as [A | (k0 & v0 & Hv0 & Hc0)].
  - set (fk := fresh_pk (sign_languages d)).
    set (nv := {| sl_name := n; sl_code := c; sl_is_active := true |}).
    set (d1 := set_sign_languages d (<[fk := nv]> (sign_languages d))).
    assert (Hfk : sign_languages d !! fk = None) by apply fresh_pk_free.
    assert (U1 : codes_unique d1) by (apply codes_unique_insert; assumption).
    destruct (IH d1 U1 ND) as (out & d' & E & U' & Hd' & Hkeep & Hnew & Hcodes & Hout).
    exists ((true, n, c) :: out), d'. simpl. unfold mbind at 1.
    rewrite (get_or_create_language_absent (n, c) d A). cbn [fst snd]. fold fk nv d1.
    unfold mbind. rewrite E. split; [reflexivity|]. split; [exact U'|].
    split; [rewrite Hd'; reflexivity|].
    split.
    { intros k v Hv. apply Hkeep. simpl. rewrite lookup_insert_ne by congruence. exact Hv. }
    split.
    { intros k v Hv. destruct (Hnew k v Hv) as [H1 | (H1 & Hin & Ha)].
      - simpl in H1. rewrite lookup_insert in H1. case_decide as E1.
        + subst k. injection H1 as <-. right. split; [exact Hfk|].
          split; [left|reflexivity].
        + left. exact H1.
      - simpl in H1. rewrite lookup_insert in H1. case_decide; [discriminate|].
        right. split; [exact H1|]. split; [right; exact Hin|exact Ha]. }
    split.
    { intros c' Hc'. apply elem_of_cons in Hc' as [->|Hc'].
      - exists fk, nv. split; [|reflexivity]. apply Hkeep. simpl. apply lookup_insert_eq.
      - apply Hcodes, Hc'. }
    f_equal.
    + symmetry. apply bool_decide_eq_true. exact A.
    + transitivity ((fun l : string * string => bool_decide (code_absent l.2 d1)) <$> rest);
        [exact Hout|]. apply list_fmap_ext. intros i [n' c'] Hi. simpl.
      apply bool_decide_ext. unfold code_absent, d1. simpl.
      rewrite map_Forall_insert by exact Hfk. simpl.
      assert (c <> c').
      { intros <-. apply Hc. apply list_elem_of_fmap. exists (n', c). split; [reflexivity|].
        apply list_elem_of_lookup_2 with i. exact Hi. }
      tauto.
  - destruct (IH d U ND) as (out & d' & E & U' & Hd' & Hkeep & Hnew & Hcodes & Hout).
    exists ((false, sl_name v0, sl_code v0) :: out), d'. simpl. unfold mbind at 1.
    rewrite (get_or_create_language_present (n, c) d k0 v0 U Hv0 Hc0).
    unfold mbind. rewrite E. split; [reflexivity|]. split; [exact U'|].
    split; [exact Hd'|]. split; [exact Hkeep|].
    split.
    { intros k v Hv. destruct (Hnew k v Hv) as [H1 | (H1 & Hin & Ha)]; [left; exact H1|].
      right. split; [exact H1|]. split; [right; exact Hin|exact Ha]. }
    split.
    { intros c' Hc'. apply elem_of_cons in Hc' as [->|Hc'].
      - exists k0, v0. split; [apply Hkeep, Hv0|exact Hc0].
      - apply Hcodes, Hc'. }
    f_equal; [|exact Hout].
    symmetry. apply bool_decide_eq_false. intros A. exact (A k0 v0 Hv0 Hc0).
Qed.

Lemma seed_all_present (langs : list (string * string)) (d : db) :
  codes_unique d ->
  (forall c, c ∈ langs.*2 -> exists k v, sign_languages d !! k = Some v /\ sl_code v = c) ->
  exists out, seed_all langs d = (Ok out, d) /\ Forall (fun line => line.1.1 = false) out.
Proof.
  intros U. induction langs as [|[n c] rest IH]; intros Hall.
  { exists []. split; [reflexivity|constructor]. }
  assert (Hc0 : c ∈ ((n, c) :: rest).*2) by (simpl; left).
  destruct (Hall c Hc0) as (k & v & Hv & Hc).
  destruct IH as (out & E & F).
  { intros c' Hc'. apply Hall. right. exact Hc'. }
  exists ((false, sl_name v, sl_code v) :: out). simpl. unfold mbind at 1.
  rewrite (get_or_create_language_present (n, c) d k v U Hv Hc).
  unfold mbind. rewrite E. split; [reflexivity|]. constructor; [reflexivity|exact F].
Qed.

Lemma seed_languages_codes_NoDup : NoDup seed_languages.*2.
Proof. simpl. repeat constructor; set_solver. Qed.

(** X11. On a database whose language codes are unique, the seed command
    runs without error; afterwards each of the five codes (ASL, BSL, KSL,
    IS, AUSLAN) names a language, codes are still unique, no existing
    language row is changed or removed, every new row is one of the five
    seed languages and active, no other table is touched, and a line
    reports 'Created' exactly for the codes no row carried before. *)
Theorem seed_data_fills_catalogue (d : db) :
  codes_unique d ->
  exists out d', handle d = (Ok out, d') /\
    codes_unique d' /\
    d' = set_sign_languages d (sign_languages d') /\
    (forall k v, sign_languages d !! k = Some v -> sign_languages d' !! k = Some v) /\
    (forall k v, sign_languages d' !! k = Some v ->
       sign_languages d !! k = Some v \/
       (sign_languages d !! k = None /\ (sl_name v, sl_code v) ∈ seed_languages /\
        sl_is_active v = true)) /\
    (forall c, c ∈ ["ASL"; "BSL"; "KSL"; "IS"; "AUSLAN"] ->
       exists k v, sign_languages d' !! k = Some v /\ sl_code v = c) /\
    out.*1.*1 = (fun l => bool_decide (code_absent l.2 d)) <$> seed_languages.
Proof.
  intros U. exact (seed_all_spec seed_languages d U seed_languages_codes_NoDup).
Qed.

Lemma seed_data_fills_catalogue_witness :
  exists out d', handle (db0 5) = (Ok out, d') /\
    (forall c, c ∈ ["ASL"; "BSL"; "KSL"; "IS"; "AUSLAN"] ->
       exists k v, sign_languages d' !! k = Some v /\ sl_code v = c).
Proof.
  destruct (seed_data_fills_catalogue (db0 5) (db0_codes_unique 5))
    as (out & d' & E & _ & _ & _ & _ & Hc & _).
  exists out, d'. split; [exact E|exact Hc].
Defined.

(** X12. The seed command is idempotent: on a database with unique
    language codes, running it a second time changes nothing and reports
    every language as already existing. *)
Theorem seed_data_idempotent (d : db) :
  codes_unique d ->
  exists out d1 out', handle d = (Ok out, d1) /\ handle d1 = (Ok out', d1) /\
    Forall (fun line => line.1.1 = false) out'.
Proof.
  intros U.
  destruct (seed_all_spec seed_languages d U seed_languages_codes_NoDup)
    as (out & d1 & E & U1 & _ & _ & _ & Hc & _).
  destruct (seed_all_present seed_languages d1 U1 Hc) as (out' & E' & F).
  exists out, d1, out'. auto.
Qed.

Lemma seed_data_idempotent_witness :
  exists out d1 out', handle (db0 5) = (Ok out, d1) /\ handle d1 = (Ok out', d1) /\
    Forall (fun line => line.1.1 = false) out'.
Proof. exact (seed_data_idempotent (db0 5) (db0_codes_unique 5)). Defined.

Lemma history_recent_own_sessions_witness :
  exists l, history (Some 7%Z) (db0 5) = Some l /\ length l <= 20.
Proof.
  destruct (proj2 (history_recent_own_sessions (db0 5)) 7%Z) as (l & H & Hl & _).
  exists l. split; [exact H|exact Hl].
Defined.

Lemma username_taken_spec (users : gmap Z User) (s : string) :
  username_taken users s = true <-> exists k u, users !! k = Some u /\ u_username u = s.
Proof.
  unfold username_taken. rewrite existsb_exists. split.
  - intros [[k u] [Hin He]]. apply list_elem_of_In, elem_of_map_to_list in Hin.
    apply String.eqb_eq in He. eauto.
  - intros (k & u & Hu & He). exists (k, u). split; [|apply String.eqb_eq, He].
    apply list_elem_of_In, elem_of_map_to_list, Hu.
Qed.

Lemma email_taken_spec (users : gmap Z User) (s : string) :
  email_taken users s = true <-> exists k u, users !! k = Some u /\ u_email u = s.
Proof.
  unfold email_taken. rewrite existsb_exists. split.
  - intros [[k u] [Hin He]]. apply list_elem_of_In, elem_of_map_to_list in Hin.
    apply String.eqb_eq in He. eauto.
  - intros (k & u & Hu & He). exists (k, u). split; [|apply String.eqb_eq, He].
    apply list_elem_of_In, elem_of_map_to_list, Hu.
Qed.

Lemma bool_false_iff (b : bool) (P : Prop) : (b = true <-> P) -> (b = false <-> ~ P).
Proof.
  intros H. split.
  - intros -> HP. apply H in HP. discriminate.
  - intros HnP. destruct b; [|reflexivity]. exfalso. apply HnP, H. reflexivity.
Qed.

(** X13. The register form passes validation (no error message) exactly
    when the terms box was sent non-empty, the stripped username is
    non-empty and no user has it, the stripped email is empty or no user
    has it, [password1] has at least 8 characters, and the two passwords
    are equal. *)
Theorem register_errors_empty_iff (users : gmap Z User) (username email password1 password2 : string)
    (agree : option string) :
  register_errors users username email password1 password2 agree = [] <->
  (exists a, agree = Some a /\ a <> "") /\
  username <> "" /\ ~ (exists k u, users !! k = Some u /\ u_username u = username) /\
  (email = "" \/ ~ (exists k u, users !! k = Some u /\ u_email u = email)) /\
  8 <= String.length password1 /\ password1 = password2.
Proof.
  pose proof (bool_false_iff _ _ (username_taken_spec users username)) as HU.
  pose proof (bool_false_iff _ _ (email_taken_spec users email)) as HE.
  unfold register_errors. split.
  - intros H. apply app_eq_nil in H as [H1 H]. apply app_eq_nil in H as [H2 H].
    apply app_eq_nil in H as [H3 H]. apply app_eq_nil in H as [H4 H5]. split; [|split; [|split; [|split; [|split]]]].
    + destruct agree as [a|]; [|discriminate H1]. exists a. split; [reflexivity|].
      destruct (String.eqb_spec a ""); [discriminate H1|assumption].
    + destruct (String.eqb_spec username ""); [discriminate H2|assumption].
    + destruct (String.eqb username ""); [discriminate H2|].
      apply HU. destruct (username_taken users username); [discriminate H2|reflexivity].
    + destruct (String.eqb_spec email ""); [left; assumption|right].
      apply HE. destruct (email_taken users email); [discriminate H3|reflexivity].
    + destruct (String.length password1 <? 8)%nat eqn:L; [discriminate H4|].
      apply Nat.ltb_ge in L. lia.
    + destruct (String.eqb_spec password1 password2); [assumption|discriminate H5].
  - intros ((a & -> & Ha) & Hu & Hnt & He & Hl & Hp).
    destruct (String.eqb_spec a ""); [contradiction|].
    destruct (String.eqb_spec username ""); [contradiction|].
    apply HU in Hnt. rewrite Hnt.
    assert (E : (negb (String.eqb email "") && email_taken users email) = false).
    { destruct He as [->|He]; [reflexivity|]. apply HE in He. rewrite He, andb_false_r.
      reflexivity. }
    rewrite E.
    assert (L : (String.length password1 <? 8)%nat = false) by (apply Nat.ltb_ge; lia).
    rewrite L. subst. rewrite String.eqb_refl. reflexivity.
Qed.

Lemma register_errors_nil_username (users : gmap Z User) (username email password1 password2 : string)
    (agree : option string) :
  register_errors users username email password1 password2 agree = [] ->
  username_taken users username = false.
Proof.
  unfold register_errors. intros H. apply app_eq_nil in H as [_ H]. apply app_eq_nil in H as [H _].
  destruct (String.eqb username ""); [discriminate H|].
  destruct (username_taken users username); [discriminate H|reflexivity].
Qed.




(** X14. A register form (anonymous POST with [form_type] 'register')
    that fails validation writes nothing: no user, no profile, and the
    auth page is rendered again with the error messages and the form
    type 'register'. *)
Theorem auth_view_register_rejected (env : auth_env) (now : Z) (next : option string)
    (post : list (string * string)) (users : gmap Z User) (d : db) :
  post_get post "form_type" "login" = "register" ->
  register_errors users (py_strip (post_get post "username" "")) (py_strip (post_get post "email" ""))
    (post_get post "password1" "") (post_get post "password2" "") (qd_get "agree_terms" post) <> [] ->
  auth_view env now {| ar_user := None; ar_post := Some post; ar_next := next |} users d
    = (Ok (RenderAuth None
             (register_errors users (py_strip (post_get post "username" ""))
                (py_strip (post_get post "email" "")) (post_get post "password1" "")
                (post_get post "password2" "") (qd_get "agree_terms" post)) "register"),
       users, d).
Proof.
  intros Hf Hne. unfold auth_view. cbn [ar_user ar_post ar_next]. rewrite Hf. simpl.
  destruct (register_errors _ _ _ _ _ _); [contradiction|reflexivity].
Qed.

(** X15. A register form that passes validation, for a username that
    Unicode normalisation leaves as it is and a new primary key that no
    stale profile row holds, creates one user under an unused primary key
    (stripped username and names, the email with its domain lower-cased,
    the hashed password1, active, logged in now) and one profile for it
    with the posted role as sent ('hearing' when absent; the role is not
    checked against [ROLE_CHOICES]) and no translations, then redirects
    home; no other row changes. *)
Theorem auth_view_register_creates_account (env : auth_env) (now : Z) (next : option string)
    (post : list (string * string)) (users : gmap Z User) (d : db) :
  post_get post "form_type" "login" = "register" ->
  register_errors users (py_strip (post_get post "username" "")) (py_strip (post_get post "email" ""))
    (post_get post "password1" "") (post_get post "password2" "") (qd_get "agree_terms" post) = [] ->
  normalize_username env (py_strip (post_get post "username" "")) = py_strip (post_get post "username" "") ->
  profiles d !! fresh_pk users = None ->
  users !! fresh_pk users = None /\
  auth_view env now {| ar_user := None; ar_post := Some post; ar_next := next |} users d
    = (Ok (Redirect "home"),
       <[fresh_pk users :=
          {| u_username := py_strip (post_get post "username" "");
             u_email := normalize_email (py_strip (post_get post "email" ""));
             u_password := make_password env (post_get post "password1" "");
             u_first_name := py_strip (post_get post "first_name" "");
             u_last_name := py_strip (post_get post "last_name" "");
             u_is_active := true; u_last_login := Some now |}]> users,
       set_profiles d (<[fresh_pk users :=
          {| up_role := post_get post "role" "hearing"; up_total_translations := 0 |}]> (profiles d))).
Proof.
  intros Hf Hok Hn Hp. split; [apply fresh_pk_free|].
  pose proof (register_errors_nil_username _ _ _ _ _ _ Hok) as Ht.
  unfold auth_view. cbn [ar_user ar_post ar_next]. rewrite Hf. simpl.
  rewrite Hok. unfold create_account. rewrite Hn, Ht, Hp.
  unfold set_last_login. rewrite alter_insert. rewrite decide_True by reflexivity. reflexivity.
Qed.


Lemma auth_view_register_rejected_witness :
  post_get demo_bad_register_post "form_type" "login" = "register" /\
  auth_view demo_auth_env 300 {| ar_user := None; ar_post := Some demo_bad_register_post;
                                 ar_next := None |} demo_users (db0 0)
    = (Ok (RenderAuth None
             ["You must agree to the Terms of Service.";
              "That username is already taken.";
              "Password must be at least 8 characters."] "register"),
       demo_users, db0 0).
Proof.
  split; [reflexivity|].
  rewrite (auth_view_register_rejected demo_auth_env 300 None demo_bad_register_post
             demo_users (db0 0)); [reflexivity|reflexivity|vm_compute; discriminate].
Defined.

Lemma auth_view_register_creates_account_witness :
  exists users' d',
    auth_view demo_auth_env 300 {| ar_user := None; ar_post := Some demo_register_post;
                                   ar_next := None |} demo_users (db0 0)
      = (Ok (Redirect "home"), users', d') /\
    users' !! 2%Z = Some {| u_username := "brian"; u_email := "Brian@example.com";
                            u_password := "hash$signs4all"; u_first_name := "Brian";
                            u_last_name := "Kip"; u_is_active := true;
                            u_last_login := Some 300%Z |} /\
    profiles d' !! 2%Z = Some {| up_role := "deaf"; up_total_translations := 0 |}.
Proof.
  destruct (auth_view_register_creates_account demo_auth_env 300 None demo_register_post
              demo_users (db0 0)) as [_ E];
    [reflexivity|vm_compute; reflexivity|vm_compute; reflexivity|vm_compute; reflexivity|].
  rewrite E. eexists _, _. split; [reflexivity|]. split; vm_compute; reflexivity.
Defined.

